(** * Moondream Station: the CLI lifecycle manager

    A shallow embedding of [app/hypervisor/clivisor.py] and of the version
    helpers of [app/inference_client/misc.py], with the properties of the
    specification that concern them.

    Conventions of the model.
    - A Python [str] is a [string]; a character stands for the code point of
      the same number, so the model covers the texts whose code points are
      below 256.
    - A pure function that may raise returns an [option]; [None] is the
      exception ([ValueError] for the parsers).
    - Stateful code runs in a state-and-exception monad over a [World]:
      the file system, the manifest, the configuration, the process that
      was launched and the trace of what was logged, printed, fetched and
      spawned.
    - What lies outside the repository (the network, the archive reader,
      the manifest refresh, the process spawner) answers through an
      [Env]; every property holds for every such answer.
    - The exceptions are those that derive from [Exception]. *)

From Stdlib Require Import ZArith NArith String Ascii List Bool Lia.
From stdpp Require Import base option list gmap strings.

(** ** Python's built-in string operations *)

Module PyStr.

Definition code (c : ascii) : N := N_of_ascii c.

(** [str.isdecimal] on one character; below 256 the decimal digits are
    '0'..'9' only. *)
Definition is_digit (c : ascii) : bool :=
  ((48 <=? code c) && (code c <=? 57))%N.

Definition digit_value (c : ascii) : Z := Z.of_N (code c) - 48.

(** [Py_ISSPACE]: tab, line feed, vertical tab, form feed, carriage return,
    space. *)
Definition is_c_space (c : ascii) : bool :=
  (((9 <=? code c) && (code c <=? 13)) || (code c =? 32))%N.

(** The non-ASCII white space below 256 ([Py_UNICODE_ISSPACE]): NEL and the
    no-break space. *)
Definition is_high_space (c : ascii) : bool :=
  ((code c =? 133) || (code c =? 160))%N.

Fixpoint is_ascii_str (s : string) : bool :=
  match s with
  | EmptyString => true
  | String c s' => (code c <? 128)%N && is_ascii_str s'
  end.

(** [_PyUnicode_TransformDecimalAndSpaceToASCII] on a text that is not
    ASCII: a character below 127 is kept, white space becomes a space, and
    the text is cut after the first other character, which becomes '?'. *)
Fixpoint transform_decimal_and_space (s : string) : string :=
  match s with
  | EmptyString => EmptyString
  | String c s' =>
      if (code c <? 127)%N then String c (transform_decimal_and_space s')
      else if is_high_space c then String " "%char (transform_decimal_and_space s')
      else String "?"%char EmptyString
  end.

Fixpoint skip_space (s : string) : string :=
  match s with
  | String c s' => if is_c_space c then skip_space s' else s
  | EmptyString => s
  end.

(** The digits of [PyLong_FromString] in base 10: decimal digits with single
    underscores between them. [prev] is the character read last. Gives the
    value and the text after the digits. *)
Fixpoint scan_digits (acc : Z) (prev : option ascii) (s : string)
  : option (Z * string) :=
  let stop :=
    match prev with
    | None => None
    | Some p => if Ascii.eqb p "_" then None else Some (acc, s)
    end in
  match s with
  | EmptyString => stop
  | String c s' =>
      if is_digit c then scan_digits (10 * acc + digit_value c) (Some c) s'
      else if Ascii.eqb c "_" then
        match prev with
        | None => None
        | Some p => if Ascii.eqb p "_" then None else scan_digits acc (Some c) s'
        end
      else stop
  end.

(** [int(s)] for a [str]: [None] is [ValueError]. *)
Definition py_int (s : string) : option Z :=
  let s := if is_ascii_str s then s else transform_decimal_and_space s in
  let s := skip_space s in
  let '(neg, s) :=
    match s with
    | String "+" s' => (false, s')
    | String "-" s' => (true, s')
    | _ => (false, s)
    end in
  match scan_digits 0 None s with
  | None => None
  | Some (v, rest) =>
      match skip_space rest with
      | EmptyString => Some (if neg : bool then (- v)%Z else v)
      | String _ _ => None
      end
  end.

(** [s.split(sep)] for a separator of one character. *)
Fixpoint split_on (sep : ascii) (s : string) : list string :=
  match s with
  | EmptyString => [EmptyString]
  | String c s' =>
      if Ascii.eqb c sep then EmptyString :: split_on sep s'
      else
        match split_on sep s' with
        | [] => [String c EmptyString]
        | x :: xs => String c x :: xs
        end
  end.

(** The longest prefix of decimal digits, and what follows it: the greedy
    match of the pattern [\d+] at the head of the text (empty when the
    pattern does not match there). *)
Fixpoint span_digits (s : string) : string * string :=
  match s with
  | EmptyString => (EmptyString, EmptyString)
  | String c s' =>
      if is_digit c then
        let '(m, rest) := span_digits s' in (String c m, rest)
      else (EmptyString, s)
  end.

(** [re.findall(r"\d+", s)]: the scan of the regular-expression engine. At
    each position the pattern is tried; a match is recorded and the scan
    goes on after it, otherwise the scan moves one character on. The fuel
    bounds the number of positions visited. *)
Fixpoint findall_digits_from (fuel : nat) (s : string) : list string :=
  match fuel with
  | O => []
  | S fuel' =>
      match s with
      | EmptyString => []
      | String _ s' =>
          match span_digits s with
          | (EmptyString, _) => findall_digits_from fuel' s'
          | (m, rest) => m :: findall_digits_from fuel' rest
          end
      end
  end.

Definition findall_digits (s : string) : list string :=
  findall_digits_from (String.length s) s.

(** The line boundaries of [str.splitlines] below 256: LF, VT, FF, CR, FS,
    GS, RS and NEL. *)
Definition is_linebreak (c : ascii) : bool :=
  (((10 <=? code c) && (code c <=? 13))
   || ((28 <=? code c) && (code c <=? 30))
   || (code c =? 133))%N.

(** [s.splitlines()]; CR LF counts as one boundary. *)
Fixpoint splitlines (s : string) : list string :=
  match s with
  | EmptyString => []
  | String c s' =>
      if is_linebreak c then
        match c, s' with
        | "013"%char, String "010"%char s'' => EmptyString :: splitlines s''
        | _, _ => EmptyString :: splitlines s'
        end
      else
        match splitlines s' with
        | [] => [String c EmptyString]
        | l :: ls => String c l :: ls
        end
  end.

(** Reading in text mode with universal newlines: CR LF and CR become LF. *)
Fixpoint universal_newlines (s : string) : string :=
  match s with
  | EmptyString => EmptyString
  | String "013"%char (String "010"%char s'') =>
      String "010"%char (universal_newlines s'')
  | String "013"%char s' => String "010"%char (universal_newlines s')
  | String c s' => String c (universal_newlines s')
  end.

(** [sep.join(l)]. *)
Fixpoint join (sep : string) (l : list string) : string :=
  match l with
  | [] => EmptyString
  | [x] => x
  | x :: xs => x +:+ sep +:+ join sep xs
  end.

(** The margin characters of [textwrap.dedent]: space and tab. *)
Definition is_blank (c : ascii) : bool :=
  Ascii.eqb c " " || Ascii.eqb c "009".

Fixpoint all_blank (s : string) : bool :=
  match s with
  | EmptyString => true
  | String c s' => is_blank c && all_blank s'
  end.

Fixpoint leading_blank (s : string) : string :=
  match s with
  | String c s' => if is_blank c then String c (leading_blank s') else EmptyString
  | EmptyString => EmptyString
  end.

Fixpoint common_prefix (a b : string) : string :=
  match a, b with
  | String x a', String y b' =>
      if Ascii.eqb x y then String x (common_prefix a' b') else EmptyString
  | _, _ => EmptyString
  end.

Fixpoint strip_prefix (pre s : string) : option string :=
  match pre, s with
  | EmptyString, _ => Some s
  | String x pre', String y s' =>
      if Ascii.eqb x y then strip_prefix pre' s' else None
  | String _ _, EmptyString => None
  end.

Definition nonempty (s : string) : bool :=
  match s with EmptyString => false | String _ _ => true end.

(** [textwrap.dedent(text)]: the lines of blanks are emptied, then the
    longest margin common to the other lines is removed from them. *)
Definition dedent (text : string) : string :=
  let lines :=
    map (fun l => if all_blank l then EmptyString else l)
        (split_on "010" text) in
  let indents := map leading_blank (List.filter nonempty lines) in
  let margin :=
    match indents with
    | [] => EmptyString
    | i :: rest => fold_left common_prefix rest i
    end in
  join (String "010" EmptyString)
       (map (fun l => default l (strip_prefix margin l)) lines).

End PyStr.

(** ** [app/inference_client/misc.py]: the version helpers *)

Module Misc.
Import PyStr.

(** [parse_version]: [None] is the [ValueError] of [int]. *)
Definition parse_version (version : string) : option (list Z) :=
  let version :=
    match version with
    | String c rest =>
        if Ascii.eqb c "v" || Ascii.eqb c "V" then rest else version
    | EmptyString => version
    end in
  mapM py_int (split_on "." version).

Definition parse_revision (revision : string) : option (list Z) :=
  let numeric_parts := findall_digits revision in
  match numeric_parts with
  | [] => Some [0%Z]
  | _ :: _ => mapM py_int numeric_parts
  end.

(** Python's [<] on two tuples of [int]: the first place where they differ
    decides, and a proper prefix is smaller. *)
Fixpoint tuple_lt (a b : list Z) : bool :=
  match a, b with
  | [], [] => false
  | [], _ :: _ => true
  | _ :: _, [] => false
  | x :: a', y :: b' => if (x =? y)%Z then tuple_lt a' b' else (x <? y)%Z
  end.

(** The values of [check_platform]. *)
Inductive Platform := macOS | Linux | other.

End Misc.

(** ** The file system

    A map from absolute paths, given by their components, to nodes. The
    directories on the way to a node are real directories: a symbolic link
    is followed where it is the last component of a path, as the operating
    system does, and a link in directory position is outside the model. An
    operation fails for the reasons the tree gives (a missing node, a node
    of the wrong kind); permissions and device errors are not modelled. *)

Module FS.
Import PyStr.

Abbreviation path := (list string).

Inductive node :=
| File (content : string) (mode : N)
| Dir
| Symlink (target : path).

Abbreviation filesystem := (gmap path node).

Inductive errno := ENOENT | EEXIST | EISDIR | ENOTDIR | ELOOP.

(** The exceptions of the model; all of them derive from [Exception]. *)
Inductive exn :=
| OSError (e : errno) (p : path)
    (* raised by a system call on [p] *)
| RmtreeOnSymlink (p : path)
    (* OSError: Cannot call rmtree on a symbolic link *)
| CliFileNotFound (p : path)
    (* FileNotFoundError: CLI file not found *)
| InterpreterNotFound (p : path)
    (* FileNotFoundError: Python interpreter not found *)
| ValueError (msg : string)
| External (os_error : bool) (what : string).
    (* raised by the network, the archive reader, the manifest or the
       process spawner; [os_error] tells whether it derives from OSError *)

Definition is_OSError (e : exn) : bool :=
  match e with
  | OSError _ _ | RmtreeOnSymlink _ | CliFileNotFound _
  | InterpreterNotFound _ => true
  | ValueError _ => false
  | External b _ => b
  end.

Definition parent (p : path) : path := removelast p.

(** The path a system call acts on when it follows the links at [p]: the
    first node on the chain that is not a link, or the place where such a
    node is missing. [None] after too many links (ELOOP). *)
Fixpoint follow (n : nat) (fs : filesystem) (p : path) : option path :=
  match fs !! p with
  | Some (Symlink t) =>
      match n with
      | O => None
      | S n' => follow n' fs t
      end
  | _ => Some p
  end.

Definition MAXSYMLINKS : nat := 40.

Definition stat (fs : filesystem) (p : path) : exn + node :=
  match follow MAXSYMLINKS fs p with
  | None => inl (OSError ELOOP p)
  | Some q =>
      match fs !! q with
      | Some nd => inr nd
      | None => inl (OSError ENOENT p)
      end
  end.

(** [os.path.exists], [Path.exists]: a failing [stat] gives [False]. *)
Definition exists_ (fs : filesystem) (p : path) : bool :=
  match stat fs p with
  | inr _ => true
  | inl _ => false
  end.

Definition isdir (fs : filesystem) (p : path) : bool :=
  match stat fs p with
  | inr Dir => true
  | _ => false
  end.

Definition isfile (fs : filesystem) (p : path) : bool :=
  match stat fs p with
  | inr (File _ _) => true
  | _ => false
  end.

(** [Path.resolve]: the links at the last component are followed; a path
    with a loop of links is left as it is, as Python does from version 3.13
    on (before, [resolve] raises RuntimeError on a loop). *)
Definition resolve (fs : filesystem) (p : path) : path :=
  default p (follow MAXSYMLINKS fs p).

(** What stops the creation of an entry at [q]: its parent must be a
    directory. *)
Definition check_parent (fs : filesystem) (q : path) : option errno :=
  match fs !! parent q with
  | Some Dir => None
  | Some _ => Some ENOTDIR
  | None => Some ENOENT
  end.

(** [open(p, mode)] for writing: the file the descriptor stands for, which
    is created with [mode0] when missing. [truncate] is mode "w", otherwise
    mode "a". *)
Definition open_write (truncate : bool) (mode0 : N) (fs : filesystem) (p : path)
  : exn + (path * filesystem) :=
  match follow MAXSYMLINKS fs p with
  | None => inl (OSError ELOOP p)
  | Some q =>
      match fs !! q with
      | Some (File c m) =>
          inr (q, if truncate then <[q := File EmptyString m]> fs else fs)
      | Some Dir => inl (OSError EISDIR p)
      | Some (Symlink _) => inl (OSError ELOOP p)
      | None =>
          match check_parent fs q with
          | Some e => inl (OSError e p)
          | None => inr (q, <[q := File EmptyString mode0]> fs)
          end
      end
  end.

(** [f.write(text)] on the file opened at [q]. *)
Definition write (fs : filesystem) (q : path) (text : string) : filesystem :=
  match fs !! q with
  | Some (File c m) => <[q := File (c +:+ text) m]> fs
  | _ => fs
  end.

(** [Path.read_text]: text mode, universal newlines. *)
Definition read_text (fs : filesystem) (p : path) : exn + string :=
  match stat fs p with
  | inl e => inl e
  | inr (File c _) => inr (universal_newlines c)
  | inr _ => inl (OSError EISDIR p)
  end.

(** [os.remove]: the node itself, never the target of a link. *)
Definition remove (fs : filesystem) (p : path) : exn + filesystem :=
  match fs !! p with
  | None => inl (OSError ENOENT p)
  | Some Dir => inl (OSError EISDIR p)
  | Some _ => inr (delete p fs)
  end.

(** [shutil.rmtree]: the directory and everything below it. *)
Definition rmtree (fs : filesystem) (p : path) : exn + filesystem :=
  match fs !! p with
  | None => inl (OSError ENOENT p)
  | Some (Symlink _) => inl (RmtreeOnSymlink p)
  | Some (File _ _) => inl (OSError ENOTDIR p)
  | Some Dir => inr (filter (fun kv => ¬ p `prefix_of` kv.1) fs)
  end.

(** [os.mkdir]. *)
Definition mkdir (fs : filesystem) (p : path) : exn + filesystem :=
  match fs !! p with
  | Some _ => inl (OSError EEXIST p)
  | None =>
      match check_parent fs p with
      | Some e => inl (OSError e p)
      | None => inr (<[p := Dir]> fs)
      end
  end.

(** [Path.mkdir(parents=False, exist_ok=True)]. *)
Definition mkdir_exist_ok (fs : filesystem) (p : path) : exn + filesystem :=
  match mkdir fs p with
  | inr fs' => inr fs'
  | inl (OSError ENOENT q) => inl (OSError ENOENT q)
  | inl e => if isdir fs p then inr fs else inl e
  end.

(** [Path.mkdir(parents=True, exist_ok=True)]: on FileNotFoundError the
    parent is made first, in the same way, and the directory after it. The
    fuel bounds the climb; the length of the path is enough. *)
Fixpoint mkdir_parents_from (fuel : nat) (fs : filesystem) (p : path)
  : exn + filesystem :=
  match mkdir fs p with
  | inr fs' => inr fs'
  | inl (OSError ENOENT q) =>
      if decide (parent p = p) then inl (OSError ENOENT q)
      else
        match fuel with
        | O => inl (OSError ENOENT q)
        | S fuel' =>
            match mkdir_parents_from fuel' fs (parent p) with
            | inl e => inl e
            | inr fs1 => mkdir_exist_ok fs1 p
            end
        end
  | inl e => if isdir fs p then inr fs else inl e
  end.

Definition mkdir_parents (fs : filesystem) (p : path) : exn + filesystem :=
  mkdir_parents_from (length p) fs p.

(** [Path.chmod]: follows links; a directory carries no mode in the model. *)
Definition chmod (fs : filesystem) (p : path) (m : N) : exn + filesystem :=
  match follow MAXSYMLINKS fs p with
  | None => inl (OSError ELOOP p)
  | Some q =>
      match fs !! q with
      | Some (File c _) => inr (<[q := File c m]> fs)
      | Some _ => inr fs
      | None => inl (OSError ENOENT p)
      end
  end.

(** [link.symlink_to(target)]. *)
Definition symlink_to (fs : filesystem) (link target : path)
  : exn + filesystem :=
  match fs !! link with
  | Some _ => inl (OSError EEXIST link)
  | None =>
      match check_parent fs link with
      | Some e => inl (OSError e link)
      | None => inr (<[link := Symlink target]> fs)
      end
  end.

(** [str(path)]. *)
Definition path_str (p : path) : string :=
  String "/" (join (String "/" EmptyString) p).

End FS.

(** ** [app/hypervisor/clivisor.py] *)

Module CLIVisor.
Import PyStr Misc FS.

(** *** The world the code runs in *)

(** The manifest collaborator: [manifest.current_cli]. *)
Record Manifest := {
  current_cli_version : string;
  current_cli_url : string
}.

(** The configuration collaborator. *)
Record Config := { active_cli : string }.

Inductive level := DEBUG | INFO | ERROR.

(** What the code does to the outside, in the order it does it. A log
    record keeps the fixed part of its message. *)
Inductive Event :=
| Log (lvl : level) (msg : string)
| Print (text : string)
| ManifestUpdate
| Urlretrieve (url : string) (out_path : path)
| Extractall (tar_path dest : path)
| Popen (argv : list string).

Record World := {
  fs : filesystem;
  manifest : Manifest;
  config : Config;
  cli_process : option nat;
  trace : list Event
}.

(** What [urlopen] gives for a URL: an exception before anything is
    written, or the bytes that arrive, followed or not by an exception. *)
Inductive Response :=
| Refused (e : exn)
| Body (data : string) (broken : option exn).

(** The surroundings of the code: the constants it computes when it is
    loaded, and the answers of what lies outside the repository. *)
Record Env := {
  PLATFORM : Platform;
  base_dir : path;
  home : path;
  umask : N;
  urlopen : string -> Response;
  (* [tarfile.open(tar_path, "r:gz")] and [extractall(path=dest)]: the
     tree it leaves and the exception it ends with, if any *)
  tar_extractall : filesystem -> path -> path -> filesystem * option exn;
  (* [Manifest.update] *)
  manifest_update : Manifest -> exn + Manifest;
  (* [subprocess.Popen(argv)]: the process identifier *)
  subprocess_Popen : list string -> exn + nat
}.

(** *** The monad: state and exceptions *)

Inductive outcome (A : Type) :=
| Return (a : A)
| Raise (e : exn).
Arguments Return {A} a.
Arguments Raise {A} e.

Definition M (A : Type) : Type := World -> outcome A * World.

#[global] Instance M_ret : MRet M := fun A a w => (Return a, w).

#[global] Instance M_bind : MBind M := fun A B f m w =>
  match m w with
  | (Return a, w') => f a w'
  | (Raise e, w') => (Raise e, w')
  end.

Definition raise {A} (e : exn) : M A := fun w => (Raise e, w).

(** [try: body except Exception as e: handler e]. *)
Definition try_except {A} (body : M A) (handler : exn -> M A) : M A :=
  fun w =>
    match body w with
    | (Return a, w') => (Return a, w')
    | (Raise e, w') => handler e w'
    end.

(** [try: body except OSError as e: handler e]. *)
Definition try_except_OSError {A} (body : M A) (handler : exn -> M A) : M A :=
  fun w =>
    match body w with
    | (Return a, w') => (Return a, w')
    | (Raise e, w') => if is_OSError e then handler e w' else (Raise e, w')
    end.

(** [for x in l: body x]. *)
Fixpoint for_each {A} (l : list A) (body : A -> M unit) : M unit :=
  match l with
  | [] => mret tt
  | x :: l' => body x ;; for_each l' body
  end.

Definition set_trace (w : World) (t : list Event) : World :=
  {| fs := fs w; manifest := manifest w; config := config w;
     cli_process := cli_process w; trace := t |}.

Definition emit (ev : Event) : M unit := fun w =>
  (Return tt, set_trace w (trace w ++ [ev])).

Definition logger (lvl : level) (msg : string) : M unit := emit (Log lvl msg).

Definition set_fs (w : World) (fs' : filesystem) : World :=
  {| fs := fs'; manifest := manifest w; config := config w;
     cli_process := cli_process w; trace := trace w |}.

(** A query of the file system. *)
Definition ask {A} (f : filesystem -> A) : M A := fun w => (Return (f (fs w)), w).

(** A system call that changes the file system or fails. *)
Definition syscall (f : filesystem -> exn + filesystem) : M unit := fun w =>
  match f (fs w) with
  | inl e => (Raise e, w)
  | inr fs' => (Return tt, set_fs w fs')
  end.

Definition syscall_open (f : filesystem -> exn + (path * filesystem)) : M path :=
  fun w =>
    match f (fs w) with
    | inl e => (Raise e, w)
    | inr (q, fs') => (Return q, set_fs w fs')
    end.

Definition syscall_read {A} (f : filesystem -> exn + A) : M A := fun w =>
  match f (fs w) with
  | inl e => (Raise e, w)
  | inr a => (Return a, w)
  end.

Definition f_write (q : path) (text : string) : M unit := fun w =>
  (Return tt, set_fs w (write (fs w) q text)).

Definition set_manifest (w : World) (m : Manifest) : World :=
  {| fs := fs w; manifest := m; config := config w;
     cli_process := cli_process w; trace := trace w |}.

Definition set_cli_process (w : World) (pid : nat) : World :=
  {| fs := fs w; manifest := manifest w; config := config w;
     cli_process := Some pid; trace := trace w |}.

Definition get_manifest : M Manifest := fun w => (Return (manifest w), w).
Definition get_config : M Config := fun w => (Return (config w), w).
Definition store_cli_process (pid : nat) : M unit := fun w =>
  (Return tt, set_cli_process w pid).

Definition nl : string := String "010" EmptyString.
Definition dq : string := String "034" EmptyString.

(** The status dictionary of [check_for_update]: its keys "ood" and
    "version". *)
Record UpdateStatus := { ood : bool; version : string }.

Section WithEnv.
Variable E : Env.

(** The mode of a file that [open] creates: 0o666 without the bits of the
    umask. *)
Definition create_mode : N := N.ldiff 438 (umask E).

(** [Path.write_text]. *)
Definition write_text (p : path) (text : string) : M unit :=
  f ← syscall_open (fun fs => open_write true create_mode fs p);
  f_write f text.

(** [urllib.request.urlretrieve(url, filename)]. *)
Definition urlretrieve (url : string) (filename : path) : M unit :=
  emit (Urlretrieve url filename);;
  match urlopen E url with
  | Refused e => raise e
  | Body data broken =>
      tfp ← syscall_open (fun fs => open_write true create_mode fs filename);
      f_write tfp data;;
      match broken with
      | Some e => raise e
      | None => mret tt
      end
  end.

(** [misc.download_file], as [app/inference_client/misc.py] has it. *)
Definition download_file (url : string) (out_path : path) : M unit :=
  logger INFO "Downloading";;
  urlretrieve url out_path;;
  logger INFO "Download complete.".

(** [with tarfile.open(tar_path, "r:gz") as tar: tar.extractall(path=dest)]. *)
Definition run_extractall (tar_path dest : path) : M unit := fun w =>
  let '(fs', r) := tar_extractall E (fs w) tar_path dest in
  match r with
  | Some e => (Raise e, set_fs w fs')
  | None => (Return tt, set_fs w fs')
  end.

Definition tarfile_extractall (tar_path dest : path) : M unit :=
  emit (Extractall tar_path dest);;
  run_extractall tar_path dest.

Definition Popen_ (argv : list string) : M nat :=
  emit (Popen argv);;
  match subprocess_Popen E argv with
  | inl e => raise e
  | inr pid => mret pid
  end.

(** *** [install_moondream_cli] *)

Definition path_line : string :=
  "export PATH=" +:+ dq +:+ "$HOME/.local/bin:$PATH" +:+ dq.

Definition path_files : list path :=
  match PLATFORM E with
  | macOS =>
      [ home E ++ [".zprofile"]; home E ++ [".zshrc"];
        home E ++ [".bash_profile"]; home E ++ [".bashrc"] ]
  | _ =>
      [ home E ++ [".profile"]; home E ++ [".bash_profile"];
        home E ++ [".zshrc"]; home E ++ [".bashrc"] ]
  end.

(** The text of the wrapper. *)
Definition script (venv_py cli_py : path) : string :=
  dedent
    ("        #!/usr/bin/env sh" +:+ nl +:+
     "        exec " +:+ dq +:+ path_str venv_py +:+ dq +:+ " "
       +:+ dq +:+ path_str cli_py +:+ dq +:+ " " +:+ dq +:+ "$@" +:+ dq +:+ nl +:+
     "        ").

(** Lines 232-239: the link in /usr/local/bin, on Linux. *)
Definition link_in_usr_local (cli_name : string) (wrapper : path) : M unit :=
  match PLATFORM E with
  | Linux =>
      try_except
        (let usr_local := ["usr"; "local"; "bin"; cli_name] in
         b ← ask (fun fs => exists_ fs usr_local);
         if negb b then
           syscall (fun fs => symlink_to fs usr_local wrapper);;
           logger DEBUG "Symlinked"
         else mret tt)
        (fun e => logger DEBUG "Could not create /usr/local/bin symlink")
  | _ => mret tt
  end.

(** Lines 258-274: the body of the loop over the profile files. *)
Definition add_path_line (rc : path) : M unit :=
  try_except_OSError
    (b ← ask (fun fs => exists_ fs rc);
     lines ← (if b : bool then
                text ← syscall_read (fun fs => read_text fs rc);
                mret (splitlines text)
              else mret []);
     if negb (bool_decide (path_line ∈ lines)) then
       f ← syscall_open (fun fs => open_write false create_mode fs rc);
       (match lines with
        | [] => mret tt
        | _ :: _ => f_write f nl
        end);;
       f_write f (path_line +:+ nl);;
       logger DEBUG "Added PATH line to"
     else
       logger DEBUG "pathline already in lines for for rc")
    (fun e => logger ERROR "Could not update").

Definition install_moondream_cli (cli_py_path venv_path : path)
    (cli_name : string) : M path :=
  cli_py ← ask (fun fs => resolve fs cli_py_path);
  venv_py ← ask (fun fs => resolve fs venv_path ++ ["bin"; "python"]);
  b ← ask (fun fs => exists_ fs cli_py);
  if negb b then
    logger INFO "CLI not found";;
    raise (CliFileNotFound cli_py)
  else
  b ← ask (fun fs => exists_ fs venv_py);
  if negb b then
    logger INFO "Python not found while trying to install CLI";;
    raise (InterpreterNotFound venv_py)
  else
  let bin_dir := home E ++ [".local"; "bin"] in
  let wrapper := bin_dir ++ [cli_name] in
  syscall (fun fs => mkdir_parents fs bin_dir);;
  write_text wrapper (script venv_py cli_py);;
  syscall (fun fs => chmod fs wrapper 493);;
  logger DEBUG "Installed wrapper";;
  link_in_usr_local cli_name wrapper;;
  for_each path_files add_path_line;;
  mret wrapper.

(** *** [CLIVisor] *)

Definition moondream_cli_dir : path := base_dir E ++ ["moondream_cli"].
Definition moondream_cli_path : path := moondream_cli_dir ++ ["moondream-cli.py"].
Definition tar_path : path := base_dir E ++ ["moondream_cli.tar.gz"].
Definition venv_dir : path := base_dir E ++ [".venv"].

(** Lines 153-162: the old directory is removed, a failure is logged. *)
Definition remove_existing_cli_dir : M unit :=
  b ← ask (fun fs => isdir fs moondream_cli_dir);
  if b : bool then
    logger DEBUG "already exists, removing to ensure clean installation";;
    try_except
      (syscall (fun fs => rmtree fs moondream_cli_dir);;
       logger DEBUG "Successfully removed existing moondream_cli directory")
      (fun e => logger ERROR "Error removing existing moondream_cli directory")
  else mret tt.

(** Lines 167-177: the body of the [try]. *)
Definition fetch_and_unpack (url : string) : M bool :=
  download_file url tar_path;;
  logger DEBUG "Extracting moondream_cli package to";;
  tarfile_extractall tar_path (base_dir E);;
  logger DEBUG "Extraction complete";;
  syscall (fun fs => remove fs tar_path);;
  logger DEBUG "Removed";;
  ask (fun fs => isfile fs moondream_cli_path).

(** Lines 178-182: the handler. *)
Definition discard_archive (e : exn) : M bool :=
  logger ERROR "Error downloading/extracting moondream_cli package";;
  b ← ask (fun fs => exists_ fs tar_path);
  (if b : bool then syscall (fun fs => remove fs tar_path) else mret tt);;
  mret false.

Definition _download_and_extract_cli (url : string) : M bool :=
  logger DEBUG "Downloading CLI from";;
  remove_existing_cli_dir;;
  try_except (fetch_and_unpack url) discard_archive.

Definition applescript : string :=
  nl +:+ "        tell application " +:+ dq +:+ "Terminal" +:+ dq +:+ nl +:+
  "            do script " +:+ dq +:+ "moondream" +:+ dq +:+ nl +:+
  "        end tell" +:+ nl +:+ "        ".

Definition launch_cli_mac : M unit :=
  Popen_ ["osascript"; "-e"; applescript];;
  logger INFO "CLI launched successfully in new window".

Definition launch_cli_ubuntu (venv_path cli_py_path : path) : M unit :=
  cli_py ← ask (fun fs => resolve fs cli_py_path);
  venv_py ← ask (fun fs => resolve fs venv_path ++ ["bin"; "python"]);
  process ← Popen_ [path_str venv_py; path_str cli_py; "--repl"; "--station"];
  logger DEBUG "CLI process started with PID";;
  store_cli_process process.

(** Lines 36-47 of [boot]: the CLI is installed. *)
Definition boot_install : M unit :=
  let cli_path := moondream_cli_path in
  b ← ask (fun fs => exists_ fs cli_path);
  (if negb b then
     m ← get_manifest;
     _download_and_extract_cli (current_cli_url m);;
     install_moondream_cli cli_path venv_dir "moondream";;
     mret tt
   else mret tt);;
  install_moondream_cli cli_path venv_dir "moondream";;
  mret tt.

(** Lines 52-62 of [boot]: the body of the [try]. *)
Definition launch : M unit :=
  match PLATFORM E with
  | macOS => launch_cli_mac
  | Linux => launch_cli_ubuntu venv_dir moondream_cli_path
  | other =>
      raise (ValueError
        "Moondream-cli only supports macOS and Ubuntu, therefore it cannot be launched on")
  end.

Definition boot : M unit :=
  boot_install;;
  logger INFO "Launching CLI in a new window";;
  try_except launch
    (fun e => logger ERROR "Failed to launch CLI in new window");;
  match PLATFORM E with
  | macOS =>
      emit (Print (nl +:+
        "If a terminal window with the CLI does not automatically appear, you can launch it by executing 'moondream' in a new window."
        +:+ nl))
  | _ => mret tt
  end.

(** [self.manifest.update()]. *)
Definition run_manifest_update : M unit := fun w =>
  match manifest_update E (manifest w) with
  | inl e => (Raise e, w)
  | inr m => (Return tt, set_manifest w m)
  end.

Definition Manifest_update : M unit :=
  emit ManifestUpdate;;
  run_manifest_update.

Definition check_for_update (update_manifest : bool) : M UpdateStatus :=
  (if update_manifest then Manifest_update else mret tt);;
  m ← get_manifest;
  c ← get_config;
  let ret_value := {| ood := false; version := current_cli_version m |} in
  let ret_value :=
    if negb (String.eqb (active_cli c) (current_cli_version m))
    then {| ood := true; version := version ret_value |}
    else ret_value in
  mret ret_value.

Definition update : M unit :=
  update_status ← check_for_update true;
  if negb (ood update_status) then mret tt
  else
    m ← get_manifest;
    _download_and_extract_cli (current_cli_url m);;
    install_moondream_cli moondream_cli_path venv_dir "moondream";;
    mret tt.

End WithEnv.
End CLIVisor.

(** ** Sample surroundings, used to run the model *)

Module Sample.
Import PyStr Misc FS CLIVisor.

(** A server that is down, an archive that unpacks to nothing. *)
Definition offline (p : Platform) : Env := {|
  PLATFORM := p;
  base_dir := ["opt"; "station"];
  home := ["home"; "u"];
  umask := 18;
  urlopen := fun _ => Refused (External true "URLError");
  tar_extractall := fun fs _ _ => (fs, None);
  manifest_update := fun m => inr m;
  subprocess_Popen := fun _ => inl (External true "FileNotFoundError")
|}.

(** A server that answers, an archive that holds the entry point. *)
Definition online (p : Platform) : Env := {|
  PLATFORM := p;
  base_dir := ["opt"; "station"];
  home := ["home"; "u"];
  umask := 18;
  urlopen := fun _ => Body "archive" None;
  tar_extractall := fun fs _ dest =>
    (<[dest ++ ["moondream_cli"; "moondream-cli.py"] := File "cli" 420]>
       (<[dest ++ ["moondream_cli"] := Dir]> fs), None);
  manifest_update := fun m => inr m;
  subprocess_Popen := fun _ => inr 4242
|}.

(** A machine with the interpreter of the station and nothing else. *)
Definition bare : filesystem :=
  list_to_map
    [ ([], Dir); (["opt"], Dir); (["opt"; "station"], Dir);
      (["opt"; "station"; ".venv"], Dir);
      (["opt"; "station"; ".venv"; "bin"], Dir);
      (["opt"; "station"; ".venv"; "bin"; "python"], File "ELF" 493);
      (["home"], Dir); (["home"; "u"], Dir) ].

(** The same with the CLI unpacked and a profile file. *)
Definition installed : filesystem :=
  <[["opt"; "station"; "moondream_cli"] := Dir]>
  (<[["opt"; "station"; "moondream_cli"; "moondream-cli.py"] := File "cli" 420]>
  (<[["home"; "u"; ".bashrc"] := File "alias ll=ls" 420]> bare)).

(** The same with a directory where the archive is downloaded. *)
Definition blocked : filesystem :=
  <[["opt"; "station"; "moondream_cli.tar.gz"] := Dir]> bare.

Definition world (f : filesystem) (active latest : string) : World := {|
  fs := f;
  manifest := {| current_cli_version := latest;
                 current_cli_url := "https://example.org/cli.tar.gz" |};
  config := {| active_cli := active |};
  cli_process := None;
  trace := []
|}.

End Sample.

(** ** The vocabulary of the specification

    Notions that the specification uses in its own words; the properties
    below compare the code with them. *)

Module Spec.
Import PyStr Misc.

Fixpoint has_char (c : ascii) (s : string) : bool :=
  match s with
  | EmptyString => false
  | String x s' => Ascii.eqb x c || has_char c s'
  end.

Fixpoint all_digits (s : string) : bool :=
  match s with
  | EmptyString => true
  | String c s' => is_digit c && all_digits s'
  end.

Fixpoint no_digit (s : string) : bool :=
  match s with
  | EmptyString => true
  | String c s' => negb (is_digit c) && no_digit s'
  end.





Definition starts_without_digit (s : string) : Prop :=
  match s with
  | EmptyString => True
  | String c _ => is_digit c = false
  end.

(** [digit_runs s runs]: [runs] are the maximal runs of digits of [s], from
    left to right. A run is a non-empty string of digits that stands
    between two characters that are not digits, or the ends of [s]. *)
Inductive digit_runs : string -> list string -> Prop :=
| runs_none s :
    no_digit s = true -> digit_runs s []
| runs_next pre run rest runs :
    no_digit pre = true ->
    run <> EmptyString -> all_digits run = true ->
    starts_without_digit rest ->
    digit_runs rest runs ->
    digit_runs (pre +:+ run +:+ rest) (run :: runs).

(** Whether version [a] comes before version [b]: the order of Python on
    the tuples of [parse_version]; [None] when one of them does not parse. *)
Definition version_before (a b : string) : option bool :=
  match parse_version a, parse_version b with
  | Some x, Some y => Some (tuple_lt x y)
  | _, _ => None
  end.

Import FS CLIVisor.

(** What [os.remove] takes away: a file or a link, not a directory. *)
Definition removable (f : filesystem) (p : path) : bool :=
  match f !! p with
  | Some (File _ _) | Some (Symlink _) => true
  | _ => false
  end.


(** The world in which [_download_and_extract_cli] starts its [try]: after
    the old directory has been dealt with. *)
Definition before_fetch (E : Env) (w : World) : World :=
  (remove_existing_cli_dir E
     (set_trace w (trace w ++ [Log DEBUG "Downloading CLI from"]))).2.



(** Two worlds that differ by their trace only. *)
Definition same_but_trace (w w' : World) : Prop :=
  fs w' = fs w /\ manifest w' = manifest w /\ config w' = config w /\
  cli_process w' = cli_process w.

End Spec.

(** ** The effect of the wrapper installation on the files

    What the steps of [install_moondream_cli] do to the file system when
    the paths they write to are not links, as functions on the tree; the
    properties below show that the code computes them. *)

Module Effects.
Import PyStr Misc FS CLIVisor.










Definition usr_local (cli_name : string) : path :=
  ["usr"; "local"; "bin"; cli_name].


Definition bin_dir (E : Env) : path := home E ++ [".local"; "bin"].







End Effects.

(** ** [app/inference_client/misc.py]: the platform and its directories *)

Module Host.
Import PyStr Misc FS.

(** [str.lower] on one character below 256: the letters A-Z, and the
    capital letters of Latin-1 (the multiplication sign is not one). *)
Definition lower_char (c : ascii) : ascii :=
  let n := code c in
  if (((65 <=? n) && (n <=? 90))
      || ((192 <=? n) && (n <=? 222) && negb (n =? 215)))%N
  then ascii_of_N (n + 32)
  else c.

Fixpoint lower (s : string) : string :=
  match s with
  | EmptyString => EmptyString
  | String c s' => String (lower_char c) (lower s')
  end.

(** [s.startswith(pre)]. *)
Definition startswith (s pre : string) : bool :=
  match strip_prefix pre s with
  | Some _ => true
  | None => false
  end.

(** What the functions below read outside the file system:
    [platform.system()], [Path.home()] and the variable XDG_DATA_HOME, as
    the absolute path it denotes. *)
Record Machine := {
  system : string;
  user_home : path;
  xdg_data_home : option path
}.

Definition is_macos (system : string) : bool :=
  startswith (lower system) "darwin".

Definition is_linux (system : string) : bool := String.eqb system "Linux".

Definition check_platform (system : string) : Platform :=
  if is_macos system then macOS
  else if is_linux system then Linux
  else other.

(** The strings that [check_platform] returns. *)
Definition platform_name (p : Platform) : string :=
  match p with
  | macOS => "macOS"
  | Linux => "Linux"
  | other => "other"
  end.

(** The last step of [os.makedirs(p, exist_ok=True)]: [mkdir], whose
    OSError is dropped when [p] is a directory. *)
Definition mkdir_or_isdir (f : filesystem) (p : path)
  : option exn * filesystem :=
  match mkdir f p with
  | inr f' => (None, f')
  | inl e => if isdir f p then (None, f) else (Some e, f)
  end.

(** [os.makedirs(p, exist_ok=True)]: the tree it leaves, and the exception
    it ends with, if any. The parent is made first when it does not exist,
    a FileExistsError of that step being ignored. The fuel bounds the
    climb; the length of the path is enough. *)
Fixpoint makedirs_from (fuel : nat) (f : filesystem) (p : path)
  : option exn * filesystem :=
  match p with
  | [] => mkdir_or_isdir f p
  | _ :: _ =>
      if exists_ f (parent p) then mkdir_or_isdir f p
      else
        match fuel with
        | O => (Some (OSError ENOENT p), f)
        | S fuel' =>
            match makedirs_from fuel' f (parent p) with
            | (None, f1) | (Some (OSError EEXIST _), f1) =>
                if String.eqb (List.last p EmptyString) "." then (None, f1)
                else mkdir_or_isdir f1 p
            | (Some e, f1) => (Some e, f1)
            end
        end
  end.

Definition makedirs (f : filesystem) (p : path) : option exn * filesystem :=
  makedirs_from (length p) f p.

(** [get_app_dir(platform)]; [None] is the default argument. *)
Definition get_app_dir (H : Machine) (platform : option string)
    (f : filesystem) : (exn + path) * filesystem :=
  let platform :=
    match platform with
    | None => platform_name (check_platform (system H))
    | Some p => p
    end in
  let base :=
    if String.eqb platform "macOS" then Some (user_home H ++ ["Library"])
    else if String.eqb platform "Linux" then
      Some (default (user_home H ++ [".local"; "share"]) (xdg_data_home H))
    else None in
  match base with
  | None => (inl (ValueError "Can only get app_dir for macOS and linux"), f)
  | Some app_dir =>
      let app_dir := app_dir ++ ["MoondreamStation"] in
      match makedirs f app_dir with
      | (Some e, f') => (inl e, f')
      | (None, f') => (inr app_dir, f')
      end
  end.

(** A Linux machine without XDG_DATA_HOME, used to run the model. *)
Definition ubuntu : Machine := {|
  system := "Linux";
  user_home := ["home"; "u"];
  xdg_data_home := None
|}.

End Host.

(** ** Further notions used by the properties *)

Module Notions.
Import PyStr Misc FS CLIVisor.

(** The number of occurrences of a character. *)
Fixpoint count_char (c : ascii) (s : string) : nat :=
  match s with
  | EmptyString => 0
  | String x s' => (if Ascii.eqb x c then 1 else 0) + count_char c s'
  end.


(** [m] never changes the component [proj] of the world, whether it
    returns or raises. *)
Definition keeps {A B} (proj : World -> B) (m : M A) : Prop :=
  forall w : World, proj (m w).2 = proj w.

(** [m] never cuts the trace, and every event it adds satisfies [P],
    whether it returns or raises. *)
Definition emits {A} (P : Event -> Prop) (m : M A) : Prop :=
  forall w : World,
    exists t : list Event, trace (m w).2 = trace w ++ t /\ Forall P t.

Definition is_log (ev : Event) : Prop :=
  match ev with Log _ _ => True | _ => False end.

(** The events that reach the network: the download, and the refresh of
    the manifest. *)
Definition is_network (ev : Event) : Prop :=
  match ev with Urlretrieve _ _ | ManifestUpdate => True | _ => False end.

Definition is_spawn (ev : Event) : Prop :=
  match ev with Popen _ => True | _ => False end.

Definition is_print (ev : Event) : Prop :=
  match ev with Print _ => True | _ => False end.

(** The surroundings [E] with a manifest that cannot be refreshed. *)
Definition stale (E : Env) (e : exn) : Env := {|
  PLATFORM := PLATFORM E;
  base_dir := base_dir E;
  home := home E;
  umask := umask E;
  urlopen := urlopen E;
  tar_extractall := tar_extractall E;
  manifest_update := fun _ => inl e;
  subprocess_Popen := subprocess_Popen E
|}.

(** The arguments of the process that [launch_cli_ubuntu] starts. *)
Definition ubuntu_argv (f : filesystem) (venv_path cli_py_path : path)
  : list string :=
  [ path_str (resolve f venv_path ++ ["bin"; "python"]);
    path_str (resolve f cli_py_path); "--repl"; "--station" ].

(** [f'] is [f] with directories added where nothing was, on the way to
    [p]. *)
Definition dirs_added (f f' : filesystem) (p : path) : Prop :=
  forall k : path,
    f' !! k = f !! k \/
    (f !! k = None /\ f' !! k = Some Dir /\ k `prefix_of` p).

End Notions.

(** * Properties *)

(** ** The monad *)

Module Run.
Import PyStr Misc FS CLIVisor.

Lemma bind_return {A B} (m : M A) (k : A -> M B) w a w1 :
  m w = (Return a, w1) -> (m ≫= k) w = k a w1.
Proof. intros H. unfold mbind, M_bind. now rewrite H. Qed.

Lemma bind_raise {A B} (m : M A) (k : A -> M B) w e w1 :
  m w = (Raise e, w1) -> (m ≫= k) w = (Raise e, w1).
Proof. intros H. unfold mbind, M_bind. now rewrite H. Qed.

(** A bind returns only when both of its parts do. *)
Lemma bind_inv_return {A B} (m : M A) (k : A -> M B) w b w2 :
  (m ≫= k) w = (Return b, w2) ->
  exists a w1, m w = (Return a, w1) /\ k a w1 = (Return b, w2).
Proof.
  unfold mbind, M_bind. destruct (m w) as [[a|e] w1]; intros H.
  - now exists a, w1.
  - discriminate.
Qed.

Lemma logger_run lvl msg w :
  logger lvl msg w = (Return tt, set_trace w (trace w ++ [Log lvl msg])).
Proof. reflexivity. Qed.


Lemma emit_run ev w :
  emit ev w = (Return tt, set_trace w (trace w ++ [ev])).
Proof. reflexivity. Qed.

(** Unfolds the monad, to run a block on a world. *)
Ltac munfold :=
  unfold mbind, M_bind, mret, M_ret, raise, try_except, try_except_OSError,
    ask, syscall, syscall_open, syscall_read, f_write, logger, emit,
    get_manifest, get_config, store_cli_process in *.

End Run.

(** ** VersionCode: [parse_version] and [parse_revision] *)

Module VersionCode.
Import PyStr Misc Spec.

Lemma split_on_nonempty sep s : split_on sep s <> [].
Proof.
  destruct s as [|c s]; simpl; [discriminate|].
  destruct (Ascii.eqb c sep); [discriminate|].
  destruct (split_on sep s); discriminate.
Qed.










(** *** The scan of [re.findall] *)

Lemma span_digits_no_digit c s :
  is_digit c = false -> span_digits (String c s) = (EmptyString, String c s).
Proof. intros H. simpl. now rewrite H. Qed.

Lemma findall_no_digit s : forall fuel,
  no_digit s = true -> findall_digits_from fuel s = [].
Proof.
  induction s as [|c s IH]; intros [|fuel] H; try reflexivity.
  simpl in H. apply andb_prop in H as [Hc Hs].
  apply negb_true_iff in Hc.
  cbn [findall_digits_from]. rewrite (span_digits_no_digit c s Hc).
  now apply IH.
Qed.

Lemma findall_skip pre x : forall fuel,
  no_digit pre = true ->
  findall_digits_from (String.length pre + fuel) (pre +:+ x)
  = findall_digits_from fuel x.
Proof.
  induction pre as [|c pre IH]; intros fuel H; [reflexivity|].
  simpl in H. apply andb_prop in H as [Hc Hs].
  apply negb_true_iff in Hc.
  change (String.length (String c pre) + fuel)
    with (S (String.length pre + fuel)).
  change (String c pre +:+ x) with (String c (pre +:+ x)).
  cbn [findall_digits_from]. rewrite (span_digits_no_digit c _ Hc).
  now apply IH.
Qed.

Lemma span_digits_run run rest :
  all_digits run = true -> starts_without_digit rest ->
  span_digits (run +:+ rest) = (run, rest).
Proof.
  induction run as [|c run IH]; intros Hd Hr.
  - simpl. destruct rest as [|c r]; [reflexivity|].
    simpl in Hr. simpl. now rewrite Hr.
  - simpl in Hd. apply andb_prop in Hd as [Hc Hs].
    change (String c run +:+ rest) with (String c (run +:+ rest)).
    simpl. rewrite Hc. now rewrite (IH Hs Hr).
Qed.

Lemma length_append (a b : string) :
  String.length (a +:+ b) = String.length a + String.length b.
Proof. induction a as [|c a IH]; simpl; [reflexivity|now rewrite IH]. Qed.

(** The scan finds the maximal runs, whatever fuel covers the text. *)
Lemma findall_of_runs s runs :
  digit_runs s runs ->
  forall fuel, String.length s <= fuel -> findall_digits_from fuel s = runs.
Proof.
  induction 1 as [s Hs|pre run rest runs Hpre Hne Hd Hr Hruns IH];
    intros fuel Hfuel.
  - now apply findall_no_digit.
  - rewrite !length_append in Hfuel.
    replace fuel with (String.length pre + (fuel - String.length pre)) by lia.
    rewrite (findall_skip pre _ _ Hpre).
    destruct run as [|c run]; [congruence|].
    destruct (fuel - String.length pre) as [|fuel'] eqn:Hf.
    { simpl in Hfuel. lia. }
    change (String c run +:+ rest) with (String c (run +:+ rest)).
    cbn [findall_digits_from].
    change (String c (run +:+ rest)) with (String c run +:+ rest).
    rewrite (span_digits_run (String c run) rest Hd Hr).
    f_equal. apply IH. simpl in Hfuel. lia.
Qed.

Lemma span_digits_spec s : forall m rest,
  span_digits s = (m, rest) ->
  s = m +:+ rest /\ all_digits m = true /\ starts_without_digit rest.
Proof.
  induction s as [|c s IH]; intros m rest H; simpl in H.
  - injection H as <- <-. repeat split.
  - destruct (is_digit c) eqn:Hc.
    + destruct (span_digits s) as [m' rest'] eqn:Hs.
      injection H as <- <-.
      destruct (IH m' rest' eq_refl) as (-> & Hd & Hr).
      repeat split; [simpl; now rewrite Hc|exact Hr].
    + injection H as <- <-. repeat split. simpl. exact Hc.
Qed.

Lemma digit_runs_skip c s runs :
  is_digit c = false -> digit_runs s runs -> digit_runs (String c s) runs.
Proof.
  intros Hc H. destruct H as [s Hs|pre run rest runs Hpre Hne Hd Hr Hruns].
  - apply runs_none. simpl. now rewrite Hc, Hs.
  - change (String c (pre +:+ run +:+ rest))
      with (String c pre +:+ run +:+ rest).
    apply runs_next; try assumption. simpl. now rewrite Hc, Hpre.
Qed.

(** The scan gives maximal runs. *)
Lemma runs_of_findall fuel : forall s,
  String.length s <= fuel -> digit_runs s (findall_digits_from fuel s).
Proof.
  induction fuel as [|fuel IH]; intros s Hlen.
  - destruct s; [|simpl in Hlen; lia]. now apply runs_none.
  - destruct s as [|c s]; [now apply runs_none|].
    cbn [findall_digits_from].
    destruct (span_digits (String c s)) as [m rest] eqn:Hspan.
    destruct (span_digits_spec _ _ _ Hspan) as (Heq & Hd & Hr).
    destruct m as [|d m].
    + change (String c s = rest) in Heq. subst rest. simpl in Hr.
      apply digit_runs_skip; [exact Hr|]. apply IH. simpl in Hlen. lia.
    + rewrite Heq.
      change (digit_runs (EmptyString +:+ String d m +:+ rest)
                (String d m :: findall_digits_from fuel rest)).
      apply runs_next; try assumption; try reflexivity; try discriminate.
      apply IH. apply (f_equal String.length) in Heq.
      rewrite length_append in Heq. simpl in Heq, Hlen. lia.
Qed.



End VersionCode.

(** ** The file system: links *)

Module Links.
Import PyStr Misc FS.

(** Where [follow] stops there is no link. *)
Lemma follow_end n : forall fs p q,
  follow n fs p = Some q ->
  match fs !! q with Some (Symlink _) => False | _ => True end.
Proof.
  induction n as [|n IH]; intros fs p q H; simpl in H.
  - destruct (fs !! p) as [[| |t]|] eqn:Hp; try discriminate;
      injection H as <-; now rewrite Hp.
  - destruct (fs !! p) as [[| |t]|] eqn:Hp;
      try (injection H as <-; now rewrite Hp).
    now apply (IH fs t q).
Qed.

(** A path without a link is its own end. *)
Lemma follow_here n fs p :
  match fs !! p with Some (Symlink _) => False | _ => True end ->
  follow n fs p = Some p.
Proof. destruct n; simpl; destruct (fs !! p) as [[| |t]|]; tauto. Qed.

Lemma exists_resolve fs p : exists_ fs (resolve fs p) = exists_ fs p.
Proof.
  unfold exists_, stat, resolve.
  destruct (follow MAXSYMLINKS fs p) as [q|] eqn:Hq.
  - change (default p (Some q)) with q.
    rewrite (follow_here _ fs q (follow_end _ _ _ _ Hq)).
    now destruct (fs !! q).
  - change (default p None) with p. now rewrite Hq.
Qed.

End Links.

(** ** The lifecycle: [check_for_update], [update], [boot] *)

Module Lifecycle.
Import PyStr Misc FS CLIVisor Spec Run Links.

(** The order of versions plays no part in [check_for_update]: with version
    2.0.0 installed and 1.0.0 in the manifest it reports out of date. *)
Lemma check_for_update_ignores_order :
  (exists w',
     check_for_update (Sample.offline Linux) true
       (Sample.world Sample.bare "2.0.0" "1.0.0")
     = (Return {| ood := true; version := "1.0.0" |}, w')) /\
  version_before "2.0.0" "1.0.0" = Some false.
Proof. split; [eexists|]; vm_compute; reflexivity. Qed.

(** C1, amended. The status that [check_for_update] returns is out of date
    exactly when the recorded [active_cli] string differs from the current
    version string of the manifest (as refreshed, when a refresh is asked
    for), and its version is that string; files and configuration are left
    as they were. *)
Theorem check_for_update_compares_strings E flag w st w' :
  check_for_update E flag w = (Return st, w') ->
  (ood st = true <->
   active_cli (config w) <> current_cli_version (manifest w')) /\
  version st = current_cli_version (manifest w') /\
  fs w' = fs w /\ config w' = config w.
Proof.
  unfold check_for_update, Manifest_update, run_manifest_update. munfold.
  destruct flag; simpl.
  - destruct (manifest_update E (manifest w)) as [e|m]; [discriminate|].
    simpl. intros H. injection H as <- <-. simpl.
    destruct (String.eqb_spec (active_cli (config w)) (current_cli_version m));
      simpl; repeat split; try congruence; auto.
  - intros H. injection H as <- <-.
    destruct (String.eqb_spec (active_cli (config w))
                (current_cli_version (manifest w)));
      simpl; repeat split; try congruence; auto.
Qed.

Lemma check_for_update_compares_strings_witness :
  exists st w',
    check_for_update (Sample.online macOS) true
      (Sample.world Sample.installed "1.0.0" "1.1.0") = (Return st, w') /\
    ood st = true /\ version st = "1.1.0".
Proof.
  eexists _, _. split; [vm_compute; reflexivity|].
  destruct (check_for_update_compares_strings (Sample.online macOS) true
              (Sample.world Sample.installed "1.0.0" "1.1.0") _ _ eq_refl)
    as (H1 & H2 & _).
  split; [reflexivity|exact H2].
Defined.

(** C4. When the check that [update] makes reports that the CLI is not out
    of date, [update] returns at once: nothing is fetched, unpacked or
    installed (the only event is the refresh of the manifest by the check)
    and the files are as before. *)
Theorem update_is_noop_when_current E w st w1 :
  check_for_update E true w = (Return st, w1) ->
  ood st = false ->
  update E w = (Return tt, w1) /\
  fs w1 = fs w /\
  trace w1 = trace w ++ [ManifestUpdate].
Proof.
  intros Hc Hood. unfold update.
  rewrite (bind_return _ _ _ _ _ Hc). rewrite Hood. simpl.
  split; [reflexivity|].
  revert Hc. unfold check_for_update, Manifest_update, run_manifest_update.
  munfold. simpl.
  destruct (manifest_update E (manifest w)) as [e|m]; [discriminate|].
  simpl. intros H. injection H as <- <-. now split.
Qed.

Lemma update_is_noop_when_current_witness :
  let w := Sample.world Sample.installed "1.0.0" "1.0.0" in
  exists w1,
    update (Sample.online Linux) w = (Return tt, w1) /\
    fs w1 = fs w /\ trace w1 = [ManifestUpdate].
Proof.
  eexists.
  apply (update_is_noop_when_current (Sample.online Linux)
           (Sample.world Sample.installed "1.0.0" "1.0.0")
           {| ood := false; version := "1.0.0" |}).
  - vm_compute. reflexivity.
  - reflexivity.
Defined.

(** The two checks that [install_moondream_cli] starts with. *)
Lemma install_missing_cli E cli_py_path venv_path cli_name w :
  exists_ (fs w) cli_py_path = false ->
  install_moondream_cli E cli_py_path venv_path cli_name w
  = (Raise (CliFileNotFound (resolve (fs w) cli_py_path)),
     set_trace w (trace w ++ [Log INFO "CLI not found"])).
Proof.
  intros H. unfold install_moondream_cli. munfold. cbn beta iota.
  rewrite exists_resolve, H. reflexivity.
Qed.

Lemma install_missing_interpreter E cli_py_path venv_path cli_name w :
  exists_ (fs w) cli_py_path = true ->
  exists_ (fs w) (resolve (fs w) venv_path ++ ["bin"; "python"]) = false ->
  install_moondream_cli E cli_py_path venv_path cli_name w
  = (Raise (InterpreterNotFound
              (resolve (fs w) venv_path ++ ["bin"; "python"])),
     set_trace w (trace w ++
       [Log INFO "Python not found while trying to install CLI"])).
Proof.
  intros H1 H2. unfold install_moondream_cli. munfold. cbn beta iota.
  rewrite exists_resolve, H1. cbn [negb]. rewrite H2. reflexivity.
Qed.

(** C3. When the entry point or the interpreter of the virtual environment
    does not exist, [install_moondream_cli] raises the error of the missing
    one (that of the entry point when both are missing) and has changed
    nothing on the file system: no directory, wrapper, link or profile
    file is written before the exception. *)
Theorem install_checks_before_writing E cli_py_path venv_path cli_name w :
  let cli_py := resolve (fs w) cli_py_path in
  let venv_py := resolve (fs w) venv_path ++ ["bin"; "python"] in
  exists_ (fs w) cli_py_path = false \/ exists_ (fs w) venv_py = false ->
  exists w',
    install_moondream_cli E cli_py_path venv_path cli_name w
    = (Raise (if exists_ (fs w) cli_py_path
              then InterpreterNotFound venv_py
              else CliFileNotFound cli_py), w') /\
    same_but_trace w w'.
Proof.
  intros cli_py venv_py H.
  destruct (exists_ (fs w) cli_py_path) eqn:Hcli.
  - destruct H as [H|H]; [discriminate|].
    rewrite (install_missing_interpreter E _ _ cli_name w Hcli H).
    eexists. split; [reflexivity|]. now repeat split.
  - rewrite (install_missing_cli E _ venv_path cli_name w Hcli).
    eexists. split; [reflexivity|]. now repeat split.
Qed.

Lemma install_checks_before_writing_witness :
  exists w',
    install_moondream_cli (Sample.online Linux)
      ["opt"; "station"; "moondream_cli"; "moondream-cli.py"]
      ["opt"; "nowhere"] "moondream"
      (Sample.world Sample.installed "1.0.0" "1.0.0")
    = (Raise (InterpreterNotFound ["opt"; "nowhere"; "bin"; "python"]), w') /\
    fs w' = Sample.installed.
Proof.
  destruct (install_checks_before_writing (Sample.online Linux)
              ["opt"; "station"; "moondream_cli"; "moondream-cli.py"]
              ["opt"; "nowhere"] "moondream"
              (Sample.world Sample.installed "1.0.0" "1.0.0"))
    as (w' & Hrun & Hfs & _).
  - right. vm_compute. reflexivity.
  - exists w'. split; [exact Hrun|exact Hfs].
Defined.

(** What [boot] does after the installation: the launch, in its [try]. *)
Lemma boot_after_install E w w1 :
  boot_install E w = (Return tt, w1) ->
  boot E w =
    ((logger INFO "Launching CLI in a new window";;
      try_except (launch E)
        (fun e => logger ERROR "Failed to launch CLI in new window");;
      match PLATFORM E with
      | macOS =>
          emit (Print (nl +:+
            "If a terminal window with the CLI does not automatically appear, you can launch it by executing 'moondream' in a new window."
            +:+ nl))
      | _ => mret tt
      end) w1).
Proof. intros H. unfold boot. now rewrite (bind_return _ _ _ _ _ H). Qed.

(** C9. Once the installation steps of [boot] are done, [boot] returns
    whatever the platform and whatever the launch does: an exception of
    the launch is caught and logged as an error. So an exception that
    leaves [boot] is one of its installation steps. On a platform other
    than macOS and Linux the launch raises [ValueError]. *)
Theorem boot_swallows_launch_failure E w :
  (forall w1, boot_install E w = (Return tt, w1) ->
     exists w', boot E w = (Return tt, w') /\
       forall e w2,
         launch E (set_trace w1 (trace w1 ++
                     [Log INFO "Launching CLI in a new window"]))
           = (Raise e, w2) ->
         In (Log ERROR "Failed to launch CLI in new window") (trace w')) /\
  (forall e w', boot E w = (Raise e, w') ->
     boot_install E w = (Raise e, w')) /\
  (PLATFORM E = other ->
     forall w0, exists msg, launch E w0 = (Raise (ValueError msg), w0)).
Proof.
  split; [|split].
  - intros w1 H1. rewrite (boot_after_install E w w1 H1).
    rewrite (bind_return _ _ _ _ _ (logger_run _ _ w1)).
    set (w1' := set_trace w1 _).
    destruct (launch E w1') as [[[]|e] w2] eqn:Hl.
    + assert (Ht : try_except (launch E)
        (fun _ => logger ERROR "Failed to launch CLI in new window") w1'
        = (Return tt, w2)) by (unfold try_except; now rewrite Hl).
      rewrite (bind_return _ _ _ _ _ Ht).
      destruct (PLATFORM E); eexists; (split; [reflexivity|]);
        intros e' w2' He; discriminate He.
    + assert (Ht : try_except (launch E)
        (fun _ => logger ERROR "Failed to launch CLI in new window") w1'
        = emit (Log ERROR "Failed to launch CLI in new window") w2)
        by (unfold try_except; now rewrite Hl).
      rewrite emit_run in Ht.
      rewrite (bind_return _ _ _ _ _ Ht).
      destruct (PLATFORM E); eexists; (split; [reflexivity|]);
        intros e' w2' _; simpl; rewrite ?in_app_iff; simpl; tauto.
  - intros e w' H. destruct (boot_install E w) as [[[]|e0] w1] eqn:H1.
    + exfalso.
      assert (Hb := boot_after_install E w w1 H1).
      rewrite H in Hb. symmetry in Hb.
      rewrite (bind_return _ _ _ _ _ (logger_run _ _ w1)) in Hb.
      revert Hb. munfold.
      match goal with |- context [launch E ?x] =>
        destruct (launch E x) as [[[]|e1] w2] end;
        destruct (PLATFORM E); discriminate.
    + unfold boot in H. rewrite (bind_raise _ _ _ _ _ H1) in H. exact H.
  - intros Hp w0. unfold launch. rewrite Hp. eexists. reflexivity.
Qed.

Lemma boot_swallows_launch_failure_witness :
  exists w',
    boot (Sample.offline other)
      (Sample.world Sample.installed "1.0.0" "1.0.0") = (Return tt, w') /\
    In (Log ERROR "Failed to launch CLI in new window") (trace w').
Proof.
  destruct (boot_swallows_launch_failure (Sample.offline other)
              (Sample.world Sample.installed "1.0.0" "1.0.0"))
    as (Hret & _ & Hother).
  destruct (boot_install (Sample.offline other)
              (Sample.world Sample.installed "1.0.0" "1.0.0"))
    as [r w1] eqn:H1.
  assert (Hr : r = Return tt).
  { apply (f_equal fst) in H1. vm_compute in H1. now symmetry. }
  subst r. destruct (Hret w1 eq_refl) as (w' & Hboot & Hlog).
  exists w'. split; [exact Hboot|].
  destruct (Hother eq_refl (set_trace w1 (trace w1 ++
              [Log INFO "Launching CLI in a new window"])))
    as [msg Hmsg].
  exact (Hlog _ _ Hmsg).
Defined.

End Lifecycle.

(** ** The installer: [_download_and_extract_cli] *)

Module Download.
Import PyStr Misc FS CLIVisor Spec Run Links.

Lemma lookup_None_absent (f : filesystem) p :
  f !! p = None -> exists_ f p = false /\ isfile f p = false.
Proof.
  intros H. unfold exists_, isfile, stat.
  rewrite (follow_here _ f p) by now rewrite H.
  now rewrite H.
Qed.

Lemma lookup_Dir_not_file (f : filesystem) p :
  f !! p = Some Dir -> isfile f p = false /\ exists_ f p = true.
Proof.
  intros H. unfold exists_, isfile, stat.
  rewrite (follow_here _ f p) by now rewrite H.
  now rewrite H.
Qed.

Lemma absent_not_file (f : filesystem) p :
  exists_ f p = false -> isfile f p = false.
Proof. unfold exists_, isfile. now destruct (stat f p). Qed.

Lemma exists_lookup (f : filesystem) p :
  exists_ f p = true -> f !! p <> None.
Proof.
  intros H Hn. destruct (lookup_None_absent f p Hn) as [H' _]. congruence.
Qed.

(** [os.remove] fails on a directory and on nothing else that exists. *)
Lemma remove_spec (f : filesystem) p :
  match remove f p with
  | inr f' => f' = delete p f /\ removable f p = true
  | inl e =>
      removable f p = false /\
      ((f !! p = None /\ e = OSError ENOENT p) \/
       (f !! p = Some Dir /\ e = OSError EISDIR p))
  end.
Proof.
  unfold remove, removable. destruct (f !! p) as [[| |]|]; auto.
Qed.




(** The old directory is dealt with without an exception. *)
Lemma remove_existing_returns E w :
  exists w0, remove_existing_cli_dir E w = (Return tt, w0).
Proof.
  unfold remove_existing_cli_dir. munfold. cbn beta iota.
  destruct (isdir (fs w) (moondream_cli_dir E)); [|eexists; reflexivity].
  cbn [fs set_trace].
  destruct (rmtree (fs w) (moondream_cli_dir E)); eexists; reflexivity.
Qed.

Lemma before_fetch_run E w w0 :
  remove_existing_cli_dir E
    (set_trace w (trace w ++ [Log DEBUG "Downloading CLI from"]))
  = (Return tt, w0) ->
  before_fetch E w = w0.
Proof. unfold before_fetch. now intros ->. Qed.

(** The operation is its [try] statement, run after the old directory has
    been dealt with. *)
Lemma download_and_extract_unfold E url w :
  _download_and_extract_cli E url w
  = try_except (fetch_and_unpack E url) (discard_archive E) (before_fetch E w).
Proof.
  unfold _download_and_extract_cli.
  rewrite (bind_return _ _ _ _ _ (logger_run _ _ w)).
  destruct (remove_existing_returns E
              (set_trace w (trace w ++ [Log DEBUG "Downloading CLI from"])))
    as [w0 H0].
  rewrite (bind_return _ _ _ _ _ H0). now rewrite (before_fetch_run E w w0 H0).
Qed.

(** The handler: it returns false with nothing left at the archive path,
    or its own [os.remove] fails on a directory. *)
Lemma discard_archive_spec E e w2 :
  exists r w',
    discard_archive E e w2 = (r, w') /\
    isfile (fs w') (tar_path E) = false /\
    ((r = Return false /\ exists_ (fs w') (tar_path E) = false) \/
     (r = Raise (OSError EISDIR (tar_path E)) /\
      fs w' !! tar_path E = Some Dir /\
      fs w2 !! tar_path E = Some Dir)).
Proof.
  unfold discard_archive. munfold. cbn beta iota. cbn [fs set_trace].
  destruct (exists_ (fs w2) (tar_path E)) eqn:Hex.
  - cbn [fs set_trace].
    pose proof (remove_spec (fs w2) (tar_path E)) as Hrm.
    destruct (remove (fs w2) (tar_path E)) as [e'|f'].
    + destruct Hrm as [_ [[Hn _]|[Hd ->]]].
      * now apply exists_lookup in Hex.
      * eexists _, _. split; [reflexivity|]. cbn [fs set_trace].
        split; [now apply lookup_Dir_not_file|]. right. auto.
    + destruct Hrm as [-> _].
      eexists _, _. split; [reflexivity|]. cbn [fs set_fs set_trace].
      destruct (lookup_None_absent (delete (tar_path E) (fs w2)) (tar_path E))
        as [H1 H2]; [apply lookup_delete_eq|].
      split; [exact H2|]. left. auto.
  - eexists _, _. split; [reflexivity|]. cbn [fs set_trace].
    split; [now apply absent_not_file|]. left. auto.
Qed.







End Download.

(** ** The callers of the installer: [boot] and [update] *)

Module Callers.
Import PyStr Misc FS CLIVisor Spec Run Links Lifecycle Download.



(** C10. [_download_and_extract_cli] is meant never to let an exception
    reach its caller, and its handler guards [os.remove] against a missing
    archive only. With a directory at the archive path the download fails,
    [os.path.exists] is true, [os.remove] raises in the handler, and the
    exception leaves the operation and then [update]: the caller sees this
    error, not the one of the missing entry point. *)
Lemma download_failure_can_escape :
  (exists w',
     _download_and_extract_cli (Sample.offline Linux)
       "https://example.org/cli.tar.gz"
       (Sample.world Sample.blocked "1.0.0" "1.1.0")
     = (Raise (OSError EISDIR ["opt"; "station"; "moondream_cli.tar.gz"]),
        w')) /\
  (exists w',
     update (Sample.offline Linux)
       (Sample.world Sample.blocked "1.0.0" "1.1.0")
     = (Raise (OSError EISDIR ["opt"; "station"; "moondream_cli.tar.gz"]),
        w')).
Proof. split; eexists; vm_compute; reflexivity. Qed.

(** What holds of the operation and of its callers in every case.
    [_download_and_extract_cli] catches every exception of the download
    and of the extraction and returns false once what is left at the
    archive path is removed; an exception leaves it only when that removal
    fails on a directory at the archive path. [update] and [boot] ignore
    the result and go on with [install_moondream_cli]; so when the
    operation has returned and the entry point is missing, they raise the
    error of the missing entry point. *)
Theorem download_failures_are_swallowed E w :
  (forall url,
     let '(r, w') := _download_and_extract_cli E url w in
     (forall e, r = Raise e ->
        e = OSError EISDIR (tar_path E) /\ fs w' !! tar_path E = Some Dir) /\
     (forall e w2,
        fetch_and_unpack E url (before_fetch E w) = (Raise e, w2) ->
        fs w2 !! tar_path E <> Some Dir -> r = Return false)) /\
  (forall st w1 b w2,
     check_for_update E true w = (Return st, w1) -> ood st = true ->
     _download_and_extract_cli E (current_cli_url (manifest w1)) w1
       = (Return b, w2) ->
     update E w
       = (install_moondream_cli E (moondream_cli_path E) (venv_dir E)
            "moondream";; mret tt) w2 /\
     (exists_ (fs w2) (moondream_cli_path E) = false ->
      exists w3,
        update E w
        = (Raise (CliFileNotFound (resolve (fs w2) (moondream_cli_path E))),
           w3))) /\
  (forall b w2,
     exists_ (fs w) (moondream_cli_path E) = false ->
     _download_and_extract_cli E (current_cli_url (manifest w)) w
       = (Return b, w2) ->
     boot_install E w
       = ((install_moondream_cli E (moondream_cli_path E) (venv_dir E)
             "moondream";; mret tt);;
          install_moondream_cli E (moondream_cli_path E) (venv_dir E)
             "moondream";; mret tt) w2 /\
     (exists_ (fs w2) (moondream_cli_path E) = false ->
      exists w3,
        boot E w
        = (Raise (CliFileNotFound (resolve (fs w2) (moondream_cli_path E))),
           w3))).
Proof.
  split; [|split].
  - intros url. rewrite download_and_extract_unfold. unfold try_except.
    destruct (fetch_and_unpack E url (before_fetch E w)) as [[b|e] w2] eqn:Hf.
    + split; [discriminate|]. intros e w3 H. discriminate H.
    + destruct (discard_archive_spec E e w2)
        as (r & w' & -> & _ & [[-> _]|(-> & Hd & Hd2)]).
      * split; [discriminate|]. reflexivity.
      * split.
        -- intros e' He'. injection He' as <-. auto.
        -- intros e' w3 H Hn. injection H as _ <-. contradiction.
  - intros st w1 b w2 Hc Hood Hdl.
    assert (Hu : update E w
      = (install_moondream_cli E (moondream_cli_path E) (venv_dir E)
           "moondream";; mret tt) w2).
    { unfold update. rewrite (bind_return _ _ _ _ _ Hc). rewrite Hood.
      cbn [negb].
      assert (Hm : get_manifest w1 = (Return (manifest w1), w1)) by reflexivity.
      rewrite (bind_return _ _ _ _ _ Hm).
      now rewrite (bind_return _ _ _ _ _ Hdl). }
    split; [exact Hu|]. intros Hmiss. rewrite Hu.
    eexists. apply bind_raise.
    apply (install_missing_cli E _ _ _ w2 Hmiss).
  - intros b w2 Hex Hdl.
    assert (Hb : boot_install E w
      = ((install_moondream_cli E (moondream_cli_path E) (venv_dir E)
            "moondream";; mret tt);;
         install_moondream_cli E (moondream_cli_path E) (venv_dir E)
            "moondream";; mret tt) w2).
    { unfold boot_install.
      assert (Ha : ask (fun f => exists_ f (moondream_cli_path E)) w
                   = (Return false, w)) by (unfold ask; now rewrite Hex).
      rewrite (bind_return _ _ _ _ _ Ha). cbn [negb].
      assert (Hm : get_manifest w = (Return (manifest w), w)) by reflexivity.
      unfold mbind at 1. unfold M_bind at 1.
      rewrite (bind_return _ _ _ _ _ Hm).
      rewrite (bind_return _ _ _ _ _ Hdl). reflexivity. }
    split; [exact Hb|]. intros Hmiss.
    eexists. unfold boot. apply bind_raise. rewrite Hb.
    apply bind_raise. apply bind_raise.
    apply (install_missing_cli E _ _ _ w2 Hmiss).
Qed.

Lemma download_failures_are_swallowed_witness :
  exists w3,
    update (Sample.offline Linux)
      (Sample.world Sample.installed "1.0.0" "1.1.0")
    = (Raise (CliFileNotFound
                ["opt"; "station"; "moondream_cli"; "moondream-cli.py"]), w3).
Proof.
  pose (w1 := (check_for_update (Sample.offline Linux) true
                 (Sample.world Sample.installed "1.0.0" "1.1.0")).2).
  pose (w2 := (_download_and_extract_cli (Sample.offline Linux)
                 (current_cli_url (manifest w1)) w1).2).
  destruct (download_failures_are_swallowed (Sample.offline Linux)
              (Sample.world Sample.installed "1.0.0" "1.1.0"))
    as (_ & Hupdate & _).
  destruct (Hupdate {| ood := true; version := "1.1.0" |} w1 false w2)
    as [_ Hraise].
  - vm_compute. reflexivity.
  - reflexivity.
  - vm_compute. reflexivity.
  - destruct Hraise as [w3 H3]; [vm_compute; reflexivity|].
    exists w3. etransitivity; [exact H3|]. vm_compute. reflexivity.
Defined.

End Callers.

(** ** The profile files: the PATH line *)

Module PathLine.
Import PyStr Misc FS CLIVisor Spec Effects Run Links.



Lemma append_assoc (a b c : string) : (a +:+ b) +:+ c = a +:+ (b +:+ c).
Proof.
  induction a as [|x a IH]; [reflexivity|].
  change (String x ((a +:+ b) +:+ c) = String x (a +:+ (b +:+ c))).
  now rewrite IH.
Qed.








End PathLine.

(** ** The wrapper installation, step by step *)

Module Wrapper.
Import PyStr Misc FS CLIVisor Spec Effects Run Links PathLine.










(** *** The directory of the wrapper *)

Lemma mkdir_spec (f : filesystem) (p : path) (f' : filesystem) :
  mkdir f p = inr f' -> f !! p = None /\ f' = <[p := Dir]> f.
Proof.
  unfold mkdir. destruct (f !! p); [discriminate|].
  destruct (check_parent f p); [discriminate|]. now intros [= <-].
Qed.

Lemma isdir_lookup (f : filesystem) (p : path) :
  f !! p = Some Dir -> isdir f p = true.
Proof.
  intros H. unfold isdir, stat.
  rewrite (follow_here _ f p) by now rewrite H. now rewrite H.
Qed.

Lemma isdir_present (f : filesystem) (p : path) :
  isdir f p = true -> f !! p <> None.
Proof.
  intros H Hn. unfold isdir, stat in H.
  rewrite (follow_here _ f p) in H by now rewrite Hn.
  now rewrite Hn in H.
Qed.


Lemma parent_prefix (p : path) : parent p `prefix_of` p.
Proof.
  unfold parent. destruct (decide (p = [])) as [->|Hne].
  - reflexivity.
  - exists [List.last p ""]. now apply app_removelast_last.
Qed.



(** *** The wrapper *)



















(** *** The files after the loop *)





(** *** Trees that grow *)












(** *** The files after the installation *)
















End Wrapper.

(** ** More on the version helpers *)

Module VersionFacts.
Import PyStr Misc Spec Notions VersionCode.


Lemma split_on_app sep a b :
  has_char sep a = false ->
  split_on sep (a +:+ String sep b) = a :: split_on sep b.
Proof.
  induction a as [|c a IH]; intros H.
  - change (EmptyString +:+ String sep b) with (String sep b).
    cbn [split_on]. now rewrite Ascii.eqb_refl.
  - cbn [has_char] in H. apply orb_false_iff in H as [Hc Hs].
    change (String c a +:+ String sep b) with (String c (a +:+ String sep b)).
    cbn [split_on]. rewrite Hc, (IH Hs). reflexivity.
Qed.






Lemma length_split_on sep s :
  length (split_on sep s) = S (count_char sep s).
Proof.
  induction s as [|c s IH]; [reflexivity|]. cbn [split_on count_char].
  destruct (Ascii.eqb c sep).
  - cbn [length]. now rewrite IH.
  - pose proof (split_on_nonempty sep s) as Hn.
    destruct (split_on sep s) as [|x xs]; [congruence|].
    cbn [length] in *. now rewrite IH.
Qed.

Lemma count_char_app c a b :
  count_char c (a +:+ b) = count_char c a + count_char c b.
Proof.
  induction a as [|x a IH]; [reflexivity|].
  change (String x a +:+ b) with (String x (a +:+ b)).
  cbn [count_char]. rewrite IH. lia.
Qed.

(** The body that [parse_version] splits has the dots of its argument. *)
Lemma parse_version_length s t :
  parse_version s = Some t -> length t = S (count_char "." s).
Proof.
  unfold parse_version. intros H. apply length_mapM in H. rewrite <- H.
  rewrite length_split_on. f_equal.
  destruct s as [|c rest]; [reflexivity|].
  destruct (Ascii.eqb_spec c "v") as [->|_]; [reflexivity|].
  destruct (Ascii.eqb_spec c "V") as [->|_]; reflexivity.
Qed.

(** X2. The tuple of a version has one component more than the version has
    dots: nothing is padded or trimmed, so a version and the same version
    followed by ".0" never give the same tuple. *)
Theorem parse_version_arity (s : string) (t : list Z) :
  parse_version s = Some t ->
  length t = S (count_char "." s) /\
  parse_version (s +:+ ".0") <> Some t.
Proof.
  intros H. pose proof (parse_version_length s t H) as Hlen.
  split; [exact Hlen|]. intros H'.
  apply parse_version_length in H'. rewrite count_char_app in H'.
  cbn in H'. lia.
Qed.

Lemma parse_version_arity_witness :
  parse_version "1.2" = Some [1; 2]%Z /\
  parse_version "1.2.0" <> Some [1; 2]%Z.
Proof.
  split; [reflexivity|].
  exact (proj2 (parse_version_arity "1.2" [1; 2]%Z eq_refl)).
Defined.

Lemma split_on_trailing sep x :
  exists l, l <> [] /\
    split_on sep (x +:+ String sep EmptyString) = l ++ [EmptyString].
Proof.
  induction x as [|c x (l & Hl & IH)].
  - exists [EmptyString]. split; [discriminate|].
    change (EmptyString +:+ String sep EmptyString)
      with (String sep EmptyString).
    cbn [split_on]. now rewrite Ascii.eqb_refl.
  - change (String c x +:+ String sep EmptyString)
      with (String c (x +:+ String sep EmptyString)).
    cbn [split_on]. rewrite IH. destruct (Ascii.eqb c sep).
    + exists (EmptyString :: l). split; [discriminate|reflexivity].
    + destruct l as [|y l]; [congruence|].
      exists (String c y :: l). split; [discriminate|reflexivity].
Qed.

(** X3. A version without a last component is an error: the empty string, and
    every string that ends with a dot. *)
Theorem parse_version_trailing_dot (s : string) :
  parse_version EmptyString = None /\ parse_version (s +:+ ".") = None.
Proof.
  split; [reflexivity|]. unfold parse_version.
  assert (H : forall x, mapM py_int (split_on "." (x +:+ ".")) = None).
  { intros x. apply mapM_None_2.
    destruct (split_on_trailing "." x) as (l & _ & ->).
    apply Exists_exists. exists EmptyString. split; [|reflexivity].
    apply elem_of_app. right. apply list_elem_of_here. }
  destruct s as [|c rest]; [reflexivity|].
  change (String c rest +:+ ".") with (String c (rest +:+ ".")).
  cbv beta iota zeta.
  match goal with |- context [if ?b then _ else _] => destruct b end;
    [apply H|].
  apply (H (String c rest)).
Qed.

Lemma py_int_letter c x :
  c = "v"%char \/ c = "V"%char -> py_int (String c x) = None.
Proof.
  intros [-> | ->]; unfold py_int;
    destruct (is_ascii_str _); cbn;
    try reflexivity.
Qed.

(** X4. Only one prefix is stripped: a version that starts with two of the
    letters v and V is an error. *)
Theorem parse_version_double_prefix (c1 c2 : ascii) (s : string) :
  c1 = "v"%char \/ c1 = "V"%char ->
  c2 = "v"%char \/ c2 = "V"%char ->
  parse_version (String c1 (String c2 s)) = None.
Proof.
  intros H1 H2. unfold parse_version.
  assert (Hb : Ascii.eqb c1 "v" || Ascii.eqb c1 "V" = true)
    by (destruct H1 as [-> | ->]; reflexivity).
  rewrite Hb. apply mapM_None_2.
  assert (Hd : Ascii.eqb c2 "." = false)
    by (destruct H2 as [-> | ->]; reflexivity).
  cbn [split_on]. rewrite Hd.
  pose proof (split_on_nonempty "." s) as Hn.
  destruct (split_on "." s) as [|y ys]; [congruence|].
  apply Exists_cons_hd. now apply py_int_letter.
Qed.

Lemma parse_version_double_prefix_witness :
  parse_version "vV1.0" = None.
Proof. apply parse_version_double_prefix; auto. Defined.




Lemma no_digit_app a b :
  no_digit a = true -> no_digit b = true -> no_digit (a +:+ b) = true.
Proof.
  induction a as [|c a IH]; intros Ha Hb; [exact Hb|].
  cbn [no_digit] in Ha. apply andb_prop in Ha as [Hc Ha].
  change (String c a +:+ b) with (String c (a +:+ b)).
  cbn [no_digit]. now rewrite Hc, IH.
Qed.

Lemma digit_runs_prefix pre s runs :
  no_digit pre = true -> digit_runs s runs -> digit_runs (pre +:+ s) runs.
Proof.
  induction pre as [|c pre IH]; intros Hp H; [exact H|].
  cbn [no_digit] in Hp. apply andb_prop in Hp as [Hc Hp].
  change (String c pre +:+ s) with (String c (pre +:+ s)).
  apply digit_runs_skip; [now apply negb_true_iff|now apply IH].
Qed.

Lemma starts_without_digit_app rest suf :
  starts_without_digit rest -> no_digit suf = true ->
  starts_without_digit (rest +:+ suf).
Proof.
  destruct rest as [|c rest]; [|auto].
  intros _ Hs. destruct suf as [|d suf]; [exact I|].
  cbn [no_digit] in Hs. apply andb_prop in Hs as [Hd _].
  now apply negb_true_iff.
Qed.

Lemma digit_runs_suffix s runs suf :
  no_digit suf = true -> digit_runs s runs -> digit_runs (s +:+ suf) runs.
Proof.
  intros Hs H.
  induction H as [s Hn|pre run rest runs Hpre Hne Hd Hr Hruns IH].
  - apply runs_none. now apply no_digit_app.
  - rewrite !PathLine.append_assoc. apply runs_next; try assumption.
    now apply starts_without_digit_app.
Qed.

(** X6. What surrounds the digits does not count: a prefix and a suffix
    without digits leave the revision tuple as it is. *)
Theorem parse_revision_ignores_affixes (pre s suf : string) :
  no_digit pre = true -> no_digit suf = true ->
  parse_revision (pre +:+ s +:+ suf) = parse_revision s.
Proof.
  intros Hp Hs. unfold parse_revision.
  assert (H : findall_digits (pre +:+ s +:+ suf) = findall_digits s).
  { unfold findall_digits at 1. apply findall_of_runs; [|apply le_n].
    apply digit_runs_prefix; [exact Hp|].
    apply digit_runs_suffix; [exact Hs|].
    apply runs_of_findall. apply le_n. }
  now rewrite H.
Qed.

Lemma parse_revision_ignores_affixes_witness :
  parse_revision "rev-2025-04-14-4bit" = parse_revision "2025-04-14-4".
Proof.
  apply (parse_revision_ignores_affixes "rev-" "2025-04-14-4" "bit");
    reflexivity.
Defined.

End VersionFacts.

(** ** Pairs of a result and a state *)

Module Pairs.

(** A run is known by its result, with the state it leaves. *)
Lemma pair_of_fst {A B} (x : A * B) (a : A) : x.1 = a -> x = (a, x.2).
Proof. destruct x as [a0 b]. cbn. now intros ->. Qed.

End Pairs.

(** ** The platform and the application directory *)

Module HostFacts.
Import PyStr Misc FS Host Notions.
Import Links Download Wrapper.

Lemma lower_char_idem (c : ascii) : lower_char (lower_char c) = lower_char c.
Proof. destruct c as [[] [] [] [] [] [] [] []]; reflexivity. Qed.

Lemma lower_idem (s : string) : lower (lower s) = lower s.
Proof.
  induction s as [|c s IH]; [reflexivity|].
  cbn [lower]. now rewrite lower_char_idem, IH.
Qed.

(** X7. The macOS test looks at the system name without its case: two
    names that differ by case only are both macOS or both not. *)
Theorem check_platform_macos_any_case (s t : string) :
  lower s = lower t ->
  (check_platform s = macOS <-> check_platform t = macOS).
Proof.
  intros H. unfold check_platform, is_macos. rewrite H.
  destruct (startswith (lower t) "darwin"); [tauto|].
  destruct (is_linux s), (is_linux t); split; discriminate.
Qed.

Lemma check_platform_macos_any_case_witness :
  check_platform "DARWIN" = macOS <-> check_platform "Darwin" = macOS.
Proof. apply (check_platform_macos_any_case "DARWIN" "Darwin"). reflexivity. Defined.

(** X8. The Linux test is exact: the platform is Linux for the system
    name "Linux" and for no other, whatever its case. *)
Theorem check_platform_linux_exact (s : string) :
  check_platform s = Linux <-> s = "Linux"%string.
Proof.
  unfold check_platform, is_linux. split.
  - destruct (is_macos s); [discriminate|].
    destruct (String.eqb s "Linux") eqn:He; [|discriminate].
    intros _. now apply String.eqb_eq.
  - intros ->. reflexivity.
Qed.

(** *** [os.makedirs] *)

Lemma mkdir_parent (f : filesystem) (p : path) (f' : filesystem) :
  mkdir f p = inr f' -> f !! parent p = Some Dir.
Proof.
  unfold mkdir, check_parent. destruct (f !! p); [discriminate|].
  destruct (f !! parent p) as [[| |]|]; try discriminate. reflexivity.
Qed.

Lemma mkdir_error (f : filesystem) (p : path) (e : exn) :
  mkdir f p = inl e -> exists en, e = OSError en p.
Proof.
  unfold mkdir. destruct (f !! p).
  - intros [= <-]. now eexists.
  - destruct (check_parent f p); [|discriminate]. intros [= <-]. now eexists.
Qed.

Lemma parent_cons_ne (x : string) (p : path) : parent (x :: p) <> x :: p.
Proof.
  intros H. apply (f_equal (@length string)) in H.
  unfold parent in H. rewrite removelast_firstn_len, length_take in H.
  cbn in H. lia.
Qed.

Lemma dirs_added_refl (f : filesystem) (p : path) : dirs_added f f p.
Proof. intros k. now left. Qed.

Lemma dirs_added_step (f f1 f2 : filesystem) (p : path) :
  dirs_added f f1 (parent p) -> dirs_added f1 f2 p -> dirs_added f f2 p.
Proof.
  intros H1 H2 k. destruct (H1 k) as [E1|(N1 & D1 & P1)],
    (H2 k) as [E2|(N2 & D2 & P2)].
  - left. congruence.
  - right. repeat split; congruence.
  - right. repeat split; try congruence.
    etransitivity; [exact P1|apply parent_prefix].
  - congruence.
Qed.

(** The last step: what it leaves, and how it ends. *)
Lemma mkdir_or_isdir_spec (f : filesystem) (p : path) (r : option exn)
    (f' : filesystem) :
  mkdir_or_isdir f p = (r, f') ->
  (r = None /\ f !! p = None /\ f !! parent p = Some Dir /\
   f' = <[p := Dir]> f) \/
  (f' = f /\ f !! p <> None /\
   ((r = None /\ isdir f p = true) \/
    (isdir f p = false /\ r = Some (OSError EEXIST p)))) \/
  (f' = f /\ f !! p = None /\ isdir f p = false /\
   exists en, r = Some (OSError en p) /\ en <> EEXIST).
Proof.
  unfold mkdir_or_isdir. destruct (mkdir f p) as [e|f2] eqn:Hm.
  - unfold mkdir in Hm. destruct (f !! p) as [nd|] eqn:Hp.
    + injection Hm as <-.
      destruct (isdir f p) eqn:Hd; intros [= <- <-]; right; left;
        (split; [reflexivity|split; [discriminate|]]); [left|right]; now split.
    + assert (Hd : isdir f p = false).
      { destruct (isdir f p) eqn:Hd; [|reflexivity].
        now apply isdir_present in Hd. }
      rewrite Hd. unfold check_parent in Hm.
      destruct (f !! parent p) as [[| |]|]; try discriminate;
        injection Hm as <-; intros [= <- <-]; right; right;
        (repeat split; eexists; split; [reflexivity|discriminate]).
  - intros [= <- <-]. left.
    pose proof (mkdir_parent _ _ _ Hm) as Hpar.
    apply mkdir_spec in Hm as [Hp ->]. now repeat split.
Qed.

Lemma mkdir_or_isdir_frame (f : filesystem) (p : path) (r : option exn)
    (f' : filesystem) :
  mkdir_or_isdir f p = (r, f') -> dirs_added f f' p.
Proof.
  intros H. apply mkdir_or_isdir_spec in H
    as [(_ & Hp & _ & ->)|[(-> & _)|(-> & _)]]; try apply dirs_added_refl.
  intros k. destruct (decide (k = p)) as [->|Hne].
  - right. rewrite lookup_insert_eq. now repeat split.
  - left. now rewrite lookup_insert_ne by congruence.
Qed.

Lemma mkdir_or_isdir_isdir (f : filesystem) (p : path) (f' : filesystem) :
  mkdir_or_isdir f p = (None, f') -> isdir f' p = true.
Proof.
  intros H. apply mkdir_or_isdir_spec in H
    as [(_ & _ & _ & ->)|[(-> & _ & [[_ Hd]|[_ Hr]])|(-> & _ & _ & en & Hr & _)]];
    try discriminate; try assumption.
  apply isdir_lookup. now rewrite lookup_insert_eq.
Qed.

Lemma mkdir_or_isdir_error (f : filesystem) (p : path) (e : exn)
    (f' : filesystem) :
  mkdir_or_isdir f p = (Some e, f') -> exists en, e = OSError en p.
Proof.
  intros H. apply mkdir_or_isdir_spec in H
    as [(Hr & _)|[(_ & _ & [[Hr _]|[_ Hr]])|(_ & _ & _ & en & Hr & _)]];
    try discriminate; injection Hr as ->; now eexists.
Qed.

Lemma mkdir_or_isdir_root (f : filesystem) (r : option exn)
    (f' : filesystem) :
  mkdir_or_isdir f [] = (r, f') -> f' = f.
Proof.
  intros H. apply mkdir_or_isdir_spec in H
    as [(_ & Hp & Hpar & _)|[(-> & _)|(-> & _)]]; try reflexivity.
  change (parent []) with (@nil string) in Hpar. congruence.
Qed.

(** The last step, run again on what it left, ends in the same way. *)
Lemma mkdir_or_isdir_again (f : filesystem) (p : path) (r : option exn)
    (f' : filesystem) :
  p <> [] ->
  mkdir_or_isdir f p = (r, f') ->
  (r = None \/ exists q, r = Some (OSError EEXIST q)) ->
  mkdir_or_isdir f' p = (r, f') /\
  (f' = f \/ exists_ f' (parent p) = true).
Proof.
  intros Hne H Hr. pose proof H as H0. apply mkdir_or_isdir_spec in H
    as [(-> & Hp & Hpar & ->)|[(-> & _)|(-> & _ & _ & en & -> & Hen)]].
  - assert (Hpp : parent p <> p).
    { destruct p as [|x p]; [congruence|apply parent_cons_ne]. }
    split.
    + unfold mkdir_or_isdir, mkdir. rewrite lookup_insert_eq.
      rewrite isdir_lookup by now rewrite lookup_insert_eq. reflexivity.
    + right. apply lookup_Dir_not_file.
      now rewrite lookup_insert_ne by congruence.
  - split; [assumption|now left].
  - destruct Hr as [Hr|[q Hr]]; [discriminate|]. injection Hr as ->.
    congruence.
Qed.

Lemma makedirs_from_frame (n : nat) :
  forall (f : filesystem) (p : path) (r : option exn) (f' : filesystem),
  makedirs_from n f p = (r, f') -> dirs_added f f' p.
Proof.
  induction n as [|n IH]; intros f p r f' H; destruct p as [|x p];
    cbn [makedirs_from] in H;
    try (now apply mkdir_or_isdir_frame in H).
  - destruct (exists_ f (parent (x :: p)));
      [now apply mkdir_or_isdir_frame in H|].
    injection H as <- <-. apply dirs_added_refl.
  - destruct (exists_ f (parent (x :: p)));
      [now apply mkdir_or_isdir_frame in H|].
    destruct (makedirs_from n f (parent (x :: p))) as [r1 f1] eqn:Hrec.
    apply IH in Hrec.
    assert (Hup : dirs_added f f1 (x :: p)).
    { apply (dirs_added_step f f f1); [apply dirs_added_refl|].
      intros k. destruct (Hrec k) as [Hk|(Hk1 & Hk2 & Hk3)]; [now left|].
      right. repeat split; try assumption.
      etransitivity; [exact Hk3|apply parent_prefix]. }
    assert (Hfin : forall r f', 
      (if String.eqb (List.last (x :: p) EmptyString) "."
       then (None, f1) else mkdir_or_isdir f1 (x :: p)) = (r, f') ->
      dirs_added f f' (x :: p)).
    { intros r0 f0 H0.
      destruct (String.eqb (List.last (x :: p) EmptyString) ".").
      - now injection H0 as <- <-.
      - apply mkdir_or_isdir_frame in H0.
        apply (dirs_added_step f f1 f0); assumption. }
    destruct r1 as [[[] q| | | | |]|]; try (now apply Hfin in H);
      injection H as <- <-; exact Hup.
Qed.

Lemma makedirs_from_error (n : nat) :
  forall (f : filesystem) (p : path) (e : exn) (f' : filesystem),
  makedirs_from n f p = (Some e, f') -> is_OSError e = true.
Proof.
  induction n as [|n IH]; intros f p e f' H; destruct p as [|x p];
    cbn [makedirs_from] in H;
    try (apply mkdir_or_isdir_error in H as [en ->]; reflexivity).
  - destruct (exists_ f (parent (x :: p)));
      [apply mkdir_or_isdir_error in H as [en ->]; reflexivity|].
    now injection H as <- <-.
  - destruct (exists_ f (parent (x :: p)));
      [apply mkdir_or_isdir_error in H as [en ->]; reflexivity|].
    destruct (makedirs_from n f (parent (x :: p))) as [r1 f1] eqn:Hrec.
    assert (Hfin :
      (if String.eqb (List.last (x :: p) EmptyString) "."
       then (None, f1) else mkdir_or_isdir f1 (x :: p)) = (Some e, f') ->
      is_OSError e = true).
    { destruct (String.eqb (List.last (x :: p) EmptyString) ".");
        [discriminate|].
      intros H0. apply mkdir_or_isdir_error in H0 as [en ->]. reflexivity. }
    destruct r1 as [[[] q| | | | |]|]; try (now apply Hfin in H);
      injection H as <- <-; now apply IH in Hrec.
Qed.

Lemma makedirs_from_isdir (n : nat) (f : filesystem) (p : path)
    (f' : filesystem) :
  List.last p EmptyString <> "."%string ->
  makedirs_from n f p = (None, f') -> isdir f' p = true.
Proof.
  intros Hlast H. apply String.eqb_neq in Hlast.
  destruct n as [|n], p as [|x p]; cbn [makedirs_from] in H;
    try (now apply mkdir_or_isdir_isdir in H).
  - destruct (exists_ f (parent (x :: p)));
      [now apply mkdir_or_isdir_isdir in H|discriminate].
  - destruct (exists_ f (parent (x :: p)));
      [now apply mkdir_or_isdir_isdir in H|].
    rewrite Hlast in H.
    destruct (makedirs_from n f (parent (x :: p))) as [[[[] q| | | | |]|] f1];
      try discriminate; now apply mkdir_or_isdir_isdir in H.
Qed.

Lemma last_in (p : path) : p <> [] -> List.last p EmptyString ∈ p.
Proof.
  intros Hne. rewrite (app_removelast_last EmptyString Hne) at 2.
  apply elem_of_app. right. apply list_elem_of_here.
Qed.

Lemma parent_in (p : path) (x : string) : x ∈ parent p -> x ∈ p.
Proof.
  intros H. destruct (decide (p = [])) as [->|Hne]; [exact H|].
  rewrite (app_removelast_last EmptyString Hne). apply elem_of_app. now left.
Qed.

(** [os.makedirs] that ended well, or on a FileExistsError, ends in the
    same way when it is run again, and changes nothing then. *)
Lemma makedirs_from_again (n : nat) :
  forall (f : filesystem) (p : path) (r : option exn) (f' : filesystem),
  "."%string ∉ p ->
  makedirs_from n f p = (r, f') ->
  (r = None \/ exists q, r = Some (OSError EEXIST q)) ->
  makedirs_from n f' p = (r, f').
Proof.
  induction n as [|n IH]; intros f p r f' Hdot H Hr; destruct p as [|x p].
  - cbn [makedirs_from] in *.
    pose proof (mkdir_or_isdir_root _ _ _ H) as ->. exact H.
  - cbn [makedirs_from] in *.
    destruct (exists_ f (parent (x :: p))) eqn:Hex.
    + destruct (mkdir_or_isdir_again f (x :: p) r f' ltac:(discriminate) H Hr)
        as [Hag [->|Hex']].
      * now rewrite Hex.
      * now rewrite Hex'.
    + injection H as <- <-.
      destruct Hr as [Hr|[q Hr]]; [discriminate|]. now injection Hr.
  - cbn [makedirs_from] in *.
    pose proof (mkdir_or_isdir_root _ _ _ H) as ->. exact H.
  - cbn [makedirs_from] in H.
    destruct (exists_ f (parent (x :: p))) eqn:Hex.
    + destruct (mkdir_or_isdir_again f (x :: p) r f' ltac:(discriminate) H Hr)
        as [Hag [->|Hex']]; cbn [makedirs_from].
      * now rewrite Hex.
      * now rewrite Hex'.
    + assert (Hlast : String.eqb (List.last (x :: p) EmptyString) "." = false).
      { apply String.eqb_neq. intros Heq. apply Hdot. rewrite <- Heq.
        now apply last_in. }
      rewrite Hlast in H.
      assert (Hdot' : "."%string ∉ parent (x :: p)).
      { intros Hin. apply Hdot. now apply parent_in. }
      destruct (makedirs_from n f (parent (x :: p))) as [r1 f1] eqn:Hrec.
      assert (Hfin : forall r1',
        (r1' = None \/ exists q, r1' = Some (OSError EEXIST q)) ->
        makedirs_from n f1 (parent (x :: p)) = (r1', f1) ->
        mkdir_or_isdir f1 (x :: p) = (r, f') ->
        makedirs_from (S n) f' (x :: p) = (r, f')).
      { intros r1' Hr1 Hrec1 Hm.
        destruct (mkdir_or_isdir_again f1 (x :: p) r f' ltac:(discriminate)
                    Hm Hr) as [Hag [->|Hex']]; cbn [makedirs_from].
        - destruct (exists_ f1 (parent (x :: p))); [assumption|].
          rewrite Hrec1, Hlast.
          destruct Hr1 as [->|[q ->]]; assumption.
        - now rewrite Hex'. }
      destruct r1 as [[[] q| | | | |]|];
        try (injection H as <- <-;
             destruct Hr as [Hr|[q' Hr]]; discriminate).
      * apply (Hfin (Some (OSError EEXIST q))); [right; now eexists| |exact H].
        apply (IH f); [assumption|assumption|right; now eexists].
      * apply (Hfin None); [now left| |exact H].
        apply (IH f); [assumption|assumption|now left].
Qed.

(** *** [get_app_dir] *)

Lemma get_app_dir_inv (H : Machine) (pl : option string) (f : filesystem)
    (r : exn + path) (f' : filesystem) :
  get_app_dir H pl f = (r, f') ->
  (f' = f /\ r = inl (ValueError "Can only get app_dir for macOS and linux") /\
   default (platform_name (check_platform (system H))) pl <> "macOS"%string /\
   default (platform_name (check_platform (system H))) pl <> "Linux"%string) \/
  exists (base : path) (m : option exn),
    makedirs f (base ++ ["MoondreamStation"]) = (m, f') /\
    r = match m with
        | Some e => inl e
        | None => inr (base ++ ["MoondreamStation"])
        end.
Proof.
  unfold get_app_dir.
  replace (match pl with
           | Some p => p
           | None => platform_name (check_platform (system H))
           end)
    with (default (platform_name (check_platform (system H))) pl)
    by now destruct pl.
  set (name := default (platform_name (check_platform (system H))) pl).
  destruct (String.eqb name "macOS") eqn:Hm.
  - intros Hrun. right. exists (user_home H ++ ["Library"]).
    destruct (makedirs f ((user_home H ++ ["Library"]) ++ ["MoondreamStation"]))
      as [[e|] f1]; injection Hrun as <- <-; eexists; split; reflexivity.
  - destruct (String.eqb name "Linux") eqn:Hl.
    + intros Hrun. right.
      exists (default (user_home H ++ [".local"; "share"]) (xdg_data_home H)).
      destruct (makedirs f
                  (default (user_home H ++ [".local"; "share"])
                     (xdg_data_home H) ++ ["MoondreamStation"]))
        as [[e|] f1]; injection Hrun as <- <-; eexists; split; reflexivity.
    + intros [= <- <-]. left. apply String.eqb_neq in Hm, Hl. now repeat split.
Qed.

(** X9. With its default argument [get_app_dir] raises ValueError exactly
    on a platform that is neither macOS nor Linux, and it has not touched
    the files then. *)
Theorem get_app_dir_unsupported (H : Machine) (f : filesystem) :
  (check_platform (system H) = other ->
   get_app_dir H None f
   = (inl (ValueError "Can only get app_dir for macOS and linux"), f)) /\
  (forall msg f', get_app_dir H None f = (inl (ValueError msg), f') ->
   check_platform (system H) = other).
Proof.
  split.
  - intros Ho. unfold get_app_dir. now rewrite Ho.
  - intros msg f' Hrun. apply get_app_dir_inv in Hrun
      as [(_ & _ & Hm & Hl)|(base & m & Hmk & Hr)].
    + cbn [default] in Hm, Hl.
      now destruct (check_platform (system H)).
    + destruct m as [e|]; [|discriminate]. injection Hr as <-.
      unfold makedirs in Hmk. apply makedirs_from_error in Hmk. discriminate.
Qed.

(** X10. An exception of [get_app_dir] other than the ValueError of an
    unsupported platform is an OSError. *)
Theorem get_app_dir_errors (H : Machine) (pl : option string)
    (f : filesystem) (e : exn) (f' : filesystem) :
  get_app_dir H pl f = (inl e, f') ->
  (exists msg, e = ValueError msg /\ f' = f) \/ is_OSError e = true.
Proof.
  intros Hrun. apply get_app_dir_inv in Hrun
    as [(-> & Hr & _)|(base & m & Hmk & Hr)].
  - left. injection Hr as ->. now eexists.
  - right. destruct m as [e'|]; [|discriminate]. injection Hr as ->.
    unfold makedirs in Hmk. now apply makedirs_from_error in Hmk.
Qed.

Lemma get_app_dir_errors_witness :
  (exists msg, ValueError "Can only get app_dir for macOS and linux"
               = ValueError msg /\ Sample.bare = Sample.bare) \/
  is_OSError (ValueError "Can only get app_dir for macOS and linux") = true.
Proof.
  apply (get_app_dir_errors ubuntu (Some "Windows"%string) Sample.bare).
  reflexivity.
Defined.

(** X11. When [get_app_dir] returns, what it returns is a directory named
    MoondreamStation. *)
Theorem get_app_dir_makes_directory (H : Machine) (pl : option string)
    (f : filesystem) (d : path) (f' : filesystem) :
  get_app_dir H pl f = (inr d, f') ->
  isdir f' d = true /\ List.last d EmptyString = "MoondreamStation"%string.
Proof.
  intros Hrun. apply get_app_dir_inv in Hrun
    as [(_ & Hr & _)|(base & m & Hmk & Hr)]; [discriminate|].
  destruct m as [e|]; [discriminate|]. injection Hr as ->.
  assert (Hlast : List.last (base ++ ["MoondreamStation"]) EmptyString
                  = "MoondreamStation"%string) by apply last_last.
  split; [|exact Hlast].
  unfold makedirs in Hmk. eapply makedirs_from_isdir; [|exact Hmk].
  rewrite Hlast. discriminate.
Qed.

Lemma get_app_dir_makes_directory_witness :
  isdir (get_app_dir ubuntu None Sample.bare).2
    ["home"; "u"; ".local"; "share"; "MoondreamStation"] = true /\
  List.last ["home"; "u"; ".local"; "share"; "MoondreamStation"] EmptyString
  = "MoondreamStation"%string.
Proof.
  apply (get_app_dir_makes_directory ubuntu None Sample.bare).
  apply Pairs.pair_of_fst. vm_compute. reflexivity.
Defined.

(** X12. Whether it returns or raises, [get_app_dir] changes no entry of
    the file system and removes none: it adds directories only, where
    nothing was, all of them on one path. *)
Theorem get_app_dir_adds_directories_only (H : Machine) (pl : option string)
    (f : filesystem) (r : exn + path) (f' : filesystem) :
  get_app_dir H pl f = (r, f') ->
  exists p : path, dirs_added f f' p.
Proof.
  intros Hrun. apply get_app_dir_inv in Hrun
    as [(-> & _)|(base & m & Hmk & Hr)].
  - exists []. apply dirs_added_refl.
  - exists (base ++ ["MoondreamStation"]).
    unfold makedirs in Hmk. now apply makedirs_from_frame in Hmk.
Qed.

Lemma get_app_dir_adds_directories_only_witness :
  exists p : path,
    dirs_added Sample.bare (get_app_dir ubuntu None Sample.bare).2 p.
Proof.
  apply (get_app_dir_adds_directories_only ubuntu None Sample.bare
           (get_app_dir ubuntu None Sample.bare).1).
  now destruct (get_app_dir ubuntu None Sample.bare).
Defined.

(** X13. [get_app_dir] that has returned returns the same directory when
    it is called again, and changes nothing then. *)
Theorem get_app_dir_again (H : Machine) (pl : option string)
    (f : filesystem) (d : path) (f' : filesystem) :
  "."%string ∉ d ->
  get_app_dir H pl f = (inr d, f') ->
  get_app_dir H pl f' = (inr d, f').
Proof.
  intros Hdot Hrun. pose proof Hrun as Hinv. apply get_app_dir_inv in Hinv
    as [(_ & Hr & _)|(base & m & Hmk & Hr)]; [discriminate|].
  destruct m as [e|]; [discriminate|]. injection Hr as ->.
  unfold makedirs in Hmk.
  apply makedirs_from_again in Hmk; [|exact Hdot|now left].
  revert Hrun. unfold get_app_dir.
  destruct (String.eqb _ "macOS").
  - destruct (makedirs f _) as [[e|] f1]; [discriminate|].
    intros [= Hd _]. rewrite Hd. unfold makedirs. now rewrite Hmk.
  - destruct (String.eqb _ "Linux"); [|discriminate].
    destruct (makedirs f _) as [[e|] f1]; [discriminate|].
    intros [= Hd _]. rewrite Hd. unfold makedirs. now rewrite Hmk.
Qed.

Lemma get_app_dir_again_witness :
  get_app_dir ubuntu None (get_app_dir ubuntu None Sample.bare).2
  = (inr ["home"; "u"; ".local"; "share"; "MoondreamStation"],
     (get_app_dir ubuntu None Sample.bare).2).
Proof.
  apply (get_app_dir_again ubuntu None Sample.bare).
  - vm_compute. intros Hin.
    repeat (apply elem_of_cons in Hin as [Hin|Hin]; [discriminate|]).
    now apply elem_of_nil in Hin.
  - apply Pairs.pair_of_fst. vm_compute. reflexivity.
Defined.

End HostFacts.

(** ** What the operations leave alone *)

Module Invariants.
Import PyStr Misc FS CLIVisor Notions Run.

(** *** Components of the world that are kept *)

Section Keeps.
Context {C : Type} (proj : World -> C).

Lemma keeps_ret {A} (a : A) : keeps proj (mret a : M A).
Proof. intros w. reflexivity. Qed.

Lemma keeps_raise {A} (e : exn) : keeps proj (raise e : M A).
Proof. intros w. reflexivity. Qed.

Lemma keeps_bind {A B} (m : M A) (k : A -> M B) :
  keeps proj m -> (forall a, keeps proj (k a)) -> keeps proj (m ≫= k).
Proof.
  intros Hm Hk w. unfold mbind, M_bind. specialize (Hm w).
  destruct (m w) as [[a|e] w1]; cbn [snd] in *; [|exact Hm].
  now rewrite (Hk a w1).
Qed.

Lemma keeps_try_except {A} (body : M A) (handler : exn -> M A) :
  keeps proj body -> (forall e, keeps proj (handler e)) ->
  keeps proj (try_except body handler).
Proof.
  intros Hm Hk w. unfold try_except. specialize (Hm w).
  destruct (body w) as [[a|e] w1]; cbn [snd] in *; [exact Hm|].
  now rewrite (Hk e w1).
Qed.

Lemma keeps_try_except_OSError {A} (body : M A) (handler : exn -> M A) :
  keeps proj body -> (forall e, keeps proj (handler e)) ->
  keeps proj (try_except_OSError body handler).
Proof.
  intros Hm Hk w. unfold try_except_OSError. specialize (Hm w).
  destruct (body w) as [[a|e] w1]; cbn [snd] in *; [exact Hm|].
  destruct (is_OSError e); [|exact Hm]. now rewrite (Hk e w1).
Qed.

Lemma keeps_for_each {A} (l : list A) (body : A -> M unit) :
  (forall x, keeps proj (body x)) -> keeps proj (for_each l body).
Proof.
  intros Hb. induction l as [|x l IH]; [apply keeps_ret|].
  cbn [for_each]. apply keeps_bind; [apply Hb|intros _; exact IH].
Qed.

Lemma keeps_ask {A} (q : filesystem -> A) : keeps proj (ask q).
Proof. intros w. reflexivity. Qed.

Lemma keeps_syscall_read {A} (q : filesystem -> exn + A) :
  keeps proj (syscall_read q).
Proof. intros w. unfold syscall_read. now destruct (q (fs w)). Qed.

Lemma keeps_get_manifest : keeps proj get_manifest.
Proof. intros w. reflexivity. Qed.

Lemma keeps_get_config : keeps proj get_config.
Proof. intros w. reflexivity. Qed.

(** What does not depend on the trace is kept by the log. *)
Section Trace.
Hypothesis Htrace : forall w t, proj (set_trace w t) = proj w.

Lemma keeps_emit (ev : Event) : keeps proj (emit ev).
Proof. intros w. apply Htrace. Qed.

Lemma keeps_logger (lvl : level) (msg : string) : keeps proj (logger lvl msg).
Proof. apply keeps_emit. Qed.

Lemma keeps_Popen (E : Env) (argv : list string) : keeps proj (Popen_ E argv).
Proof.
  unfold Popen_. apply keeps_bind; [apply keeps_emit|]. intros _.
  destruct (subprocess_Popen E argv); [apply keeps_raise|apply keeps_ret].
Qed.

(** What depends neither on the trace nor on the files is kept by the
    download, the extraction and the installation. *)
Section Files.
Hypothesis Hfs : forall w f, proj (set_fs w f) = proj w.

Lemma keeps_syscall (q : filesystem -> exn + filesystem) :
  keeps proj (syscall q).
Proof.
  intros w. unfold syscall. destruct (q (fs w)); [reflexivity|apply Hfs].
Qed.

Lemma keeps_syscall_open (q : filesystem -> exn + (path * filesystem)) :
  keeps proj (syscall_open q).
Proof.
  intros w. unfold syscall_open.
  destruct (q (fs w)) as [e|[p f]]; [reflexivity|apply Hfs].
Qed.

Lemma keeps_f_write (q : path) (text : string) : keeps proj (f_write q text).
Proof. intros w. apply Hfs. Qed.

Lemma keeps_write_text (E : Env) (p : path) (text : string) :
  keeps proj (write_text E p text).
Proof.
  unfold write_text. apply keeps_bind; [apply keeps_syscall_open|].
  intros q. apply keeps_f_write.
Qed.

Lemma keeps_download_file (E : Env) (url : string) (p : path) :
  keeps proj (download_file E url p).
Proof.
  unfold download_file, urlretrieve.
  apply keeps_bind; [apply keeps_logger|]. intros _.
  apply keeps_bind; [|intros _; apply keeps_logger].
  apply keeps_bind; [apply keeps_emit|]. intros _.
  destruct (urlopen E url) as [e|data broken]; [apply keeps_raise|].
  apply keeps_bind; [apply keeps_syscall_open|]. intros q.
  apply keeps_bind; [apply keeps_f_write|]. intros _.
  destruct broken; [apply keeps_raise|apply keeps_ret].
Qed.

Lemma keeps_tarfile_extractall (E : Env) (t d : path) :
  keeps proj (tarfile_extractall E t d).
Proof.
  unfold tarfile_extractall. apply keeps_bind; [apply keeps_emit|]. intros _.
  intros w. unfold run_extractall.
  destruct (tar_extractall E (fs w) t d) as [f' [e|]]; apply Hfs.
Qed.

Lemma keeps_remove_existing_cli_dir (E : Env) :
  keeps proj (remove_existing_cli_dir E).
Proof.
  unfold remove_existing_cli_dir. apply keeps_bind; [apply keeps_ask|].
  intros [|]; [|apply keeps_ret].
  apply keeps_bind; [apply keeps_logger|]. intros _.
  apply keeps_try_except; [|intros e; apply keeps_logger].
  apply keeps_bind; [apply keeps_syscall|intros _; apply keeps_logger].
Qed.

Lemma keeps_download_and_extract (E : Env) (url : string) :
  keeps proj (_download_and_extract_cli E url).
Proof.
  unfold _download_and_extract_cli.
  apply keeps_bind; [apply keeps_logger|]. intros _.
  apply keeps_bind; [apply keeps_remove_existing_cli_dir|]. intros _.
  apply keeps_try_except.
  - unfold fetch_and_unpack.
    apply keeps_bind; [apply keeps_download_file|]. intros _.
    apply keeps_bind; [apply keeps_logger|]. intros _.
    apply keeps_bind; [apply keeps_tarfile_extractall|]. intros _.
    apply keeps_bind; [apply keeps_logger|]. intros _.
    apply keeps_bind; [apply keeps_syscall|]. intros _.
    apply keeps_bind; [apply keeps_logger|]. intros _.
    apply keeps_ask.
  - intros e. unfold discard_archive.
    apply keeps_bind; [apply keeps_logger|]. intros _.
    apply keeps_bind; [apply keeps_ask|]. intros b.
    apply keeps_bind; [|intros _; apply keeps_ret].
    destruct b; [apply keeps_syscall|apply keeps_ret].
Qed.

Lemma keeps_link_in_usr_local (E : Env) (cli_name : string) (wrapper : path) :
  keeps proj (link_in_usr_local E cli_name wrapper).
Proof.
  unfold link_in_usr_local. destruct (PLATFORM E); try apply keeps_ret.
  apply keeps_try_except; [|intros e; apply keeps_logger].
  apply keeps_bind; [apply keeps_ask|]. intros b.
  destruct (negb b); [|apply keeps_ret].
  apply keeps_bind; [apply keeps_syscall|intros _; apply keeps_logger].
Qed.

Lemma keeps_add_path_line (E : Env) (rc : path) :
  keeps proj (add_path_line E rc).
Proof.
  unfold add_path_line.
  apply keeps_try_except_OSError; [|intros e; apply keeps_logger].
  apply keeps_bind; [apply keeps_ask|]. intros b.
  apply keeps_bind.
  - destruct b; [|apply keeps_ret].
    apply keeps_bind; [apply keeps_syscall_read|intros t; apply keeps_ret].
  - intros lines. destruct (negb _); [|apply keeps_logger].
    apply keeps_bind; [apply keeps_syscall_open|]. intros q.
    apply keeps_bind.
    + destruct lines; [apply keeps_ret|apply keeps_f_write].
    + intros _. apply keeps_bind; [apply keeps_f_write|].
      intros _. apply keeps_logger.
Qed.

Lemma keeps_install (E : Env) (cli_py_path venv_path : path)
    (cli_name : string) :
  keeps proj (install_moondream_cli E cli_py_path venv_path cli_name).
Proof.
  unfold install_moondream_cli.
  apply keeps_bind; [apply keeps_ask|]. intros cli_py.
  apply keeps_bind; [apply keeps_ask|]. intros venv_py.
  apply keeps_bind; [apply keeps_ask|]. intros b.
  destruct (negb b).
  { apply keeps_bind; [apply keeps_logger|intros _; apply keeps_raise]. }
  apply keeps_bind; [apply keeps_ask|]. intros b'.
  destruct (negb b').
  { apply keeps_bind; [apply keeps_logger|intros _; apply keeps_raise]. }
  cbv zeta.
  apply keeps_bind; [apply keeps_syscall|]. intros _.
  apply keeps_bind; [apply keeps_write_text|]. intros _.
  apply keeps_bind; [apply keeps_syscall|]. intros _.
  apply keeps_bind; [apply keeps_logger|]. intros _.
  apply keeps_bind; [apply keeps_link_in_usr_local|]. intros _.
  apply keeps_bind; [|intros _; apply keeps_ret].
  apply keeps_for_each. intros rc. apply keeps_add_path_line.
Qed.

Lemma keeps_boot_install (E : Env) : keeps proj (boot_install E).
Proof.
  unfold boot_install. cbv zeta.
  apply keeps_bind; [apply keeps_ask|]. intros b.
  apply keeps_bind.
  - destruct (negb b); [|apply keeps_ret].
    apply keeps_bind; [apply keeps_get_manifest|]. intros m.
    apply keeps_bind; [apply keeps_download_and_extract|]. intros _.
    apply keeps_bind; [apply keeps_install|intros _; apply keeps_ret].
  - intros _.
    apply keeps_bind; [apply keeps_install|intros _; apply keeps_ret].
Qed.

Lemma keeps_launch_cli_mac (E : Env) : keeps proj (launch_cli_mac E).
Proof.
  unfold launch_cli_mac.
  apply keeps_bind; [apply keeps_Popen|intros _; apply keeps_logger].
Qed.

End Files.
End Trace.
End Keeps.

Lemma keeps_launch {C} (proj : World -> C) (E : Env) :
  (forall w t, proj (set_trace w t) = proj w) ->
  (forall w pid, proj (set_cli_process w pid) = proj w) ->
  keeps proj (launch E).
Proof.
  intros Ht Hp. unfold launch. destruct (PLATFORM E).
  - now apply keeps_launch_cli_mac.
  - unfold launch_cli_ubuntu.
    apply keeps_bind; [apply keeps_ask|]. intros cli_py.
    apply keeps_bind; [apply keeps_ask|]. intros venv_py.
    apply keeps_bind; [now apply keeps_Popen|]. intros pid.
    apply keeps_bind; [now apply keeps_logger|]. intros _.
    intros w. apply Hp.
  - apply keeps_raise.
Qed.

Lemma keeps_check_for_update {C} (proj : World -> C) (E : Env) (b : bool) :
  (forall w t, proj (set_trace w t) = proj w) ->
  (forall w m, proj (set_manifest w m) = proj w) ->
  keeps proj (check_for_update E b).
Proof.
  intros Ht Hm. unfold check_for_update. apply keeps_bind.
  - destruct b; [|apply keeps_ret]. unfold Manifest_update.
    apply keeps_bind; [now apply keeps_emit|]. intros _.
    intros w. unfold run_manifest_update.
    destruct (manifest_update E (manifest w)); [reflexivity|apply Hm].
  - intros _. apply keeps_bind; [apply keeps_get_manifest|]. intros m.
    apply keeps_bind; [apply keeps_get_config|]. intros c. apply keeps_ret.
Qed.

Lemma keeps_update {C} (proj : World -> C) (E : Env) :
  (forall w t, proj (set_trace w t) = proj w) ->
  (forall w f, proj (set_fs w f) = proj w) ->
  (forall w m, proj (set_manifest w m) = proj w) ->
  keeps proj (update E).
Proof.
  intros Ht Hf Hm. unfold update.
  apply keeps_bind; [now apply keeps_check_for_update|]. intros st.
  destruct (negb (ood st)); [apply keeps_ret|].
  apply keeps_bind; [apply keeps_get_manifest|]. intros m.
  apply keeps_bind; [now apply keeps_download_and_extract|]. intros _.
  apply keeps_bind; [now apply keeps_install|intros _; apply keeps_ret].
Qed.

Lemma keeps_boot {C} (proj : World -> C) (E : Env) :
  (forall w t, proj (set_trace w t) = proj w) ->
  (forall w f, proj (set_fs w f) = proj w) ->
  (forall w pid, proj (set_cli_process w pid) = proj w) ->
  keeps proj (boot E).
Proof.
  intros Ht Hf Hp. unfold boot.
  apply keeps_bind; [now apply keeps_boot_install|]. intros _.
  apply keeps_bind; [now apply keeps_logger|]. intros _.
  apply keeps_bind.
  - apply keeps_try_except; [now apply keeps_launch|].
    intros e. now apply keeps_logger.
  - intros _. destruct (PLATFORM E); try apply keeps_ret.
    now apply keeps_emit.
Qed.

(** X14. No operation of the manager writes the configuration: after
    [update], [boot] or [check_for_update], whether they return or raise,
    the recorded active version is what it was. *)
Theorem config_never_written (E : Env) :
  keeps config (update E) /\ keeps config (boot E) /\
  forall b : bool, keeps config (check_for_update E b).
Proof.
  split; [|split].
  - now apply keeps_update.
  - now apply keeps_boot.
  - intros b. now apply keeps_check_for_update.
Qed.

(** X15. The manifest is refreshed by [check_for_update] with its flag on,
    and so by [update], and by nothing else: [boot] and the check without
    refresh leave the manifest as it is. *)
Theorem manifest_kept_by_boot (E : Env) :
  keeps manifest (boot E) /\ keeps manifest (check_for_update E false).
Proof.
  split.
  - now apply keeps_boot.
  - unfold check_for_update.
    apply keeps_bind; [apply keeps_ret|]. intros _.
    apply keeps_bind; [apply keeps_get_manifest|]. intros m.
    apply keeps_bind; [apply keeps_get_config|]. intros c. apply keeps_ret.
Qed.

(** X16. The process of the CLI is recorded by the launch on Linux only:
    [update], the check, the installation that [boot] starts with and the
    launch on macOS leave the recorded process as it is. *)
Theorem process_kept_outside_linux_launch (E : Env) :
  keeps cli_process (update E) /\
  keeps cli_process (boot_install E) /\
  keeps cli_process (launch_cli_mac E) /\
  forall b : bool, keeps cli_process (check_for_update E b).
Proof.
  repeat split.
  - now apply keeps_update.
  - now apply keeps_boot_install.
  - now apply keeps_launch_cli_mac.
  - intros b. now apply keeps_check_for_update.
Qed.

(** X17. The check for an update and the launch never touch the files. *)
Theorem files_kept_by_check_and_launch (E : Env) :
  keeps fs (launch E) /\ forall b : bool, keeps fs (check_for_update E b).
Proof.
  split.
  - now apply keeps_launch.
  - intros b. now apply keeps_check_for_update.
Qed.

(** *** The events that are emitted *)

Section Emits.
Context (P : Event -> Prop).

Lemma emits_of_keeps {A} (m : M A) : keeps trace m -> emits P m.
Proof.
  intros H w. exists []. rewrite (H w), app_nil_r. now split.
Qed.

Lemma emits_ret {A} (a : A) : emits P (mret a : M A).
Proof. apply emits_of_keeps, keeps_ret. Qed.

Lemma emits_raise {A} (e : exn) : emits P (raise e : M A).
Proof. apply emits_of_keeps, keeps_raise. Qed.

Lemma emits_emit (ev : Event) : P ev -> emits P (emit ev).
Proof.
  intros H w. exists [ev]. split; [reflexivity|]. now constructor.
Qed.

Lemma emits_bind {A B} (m : M A) (k : A -> M B) :
  emits P m -> (forall a, emits P (k a)) -> emits P (m ≫= k).
Proof.
  intros Hm Hk w. unfold mbind, M_bind. destruct (Hm w) as (t1 & H1 & F1).
  destruct (m w) as [[a|e] w1]; cbn [snd] in *.
  - destruct (Hk a w1) as (t2 & H2 & F2). exists (t1 ++ t2).
    split; [now rewrite H2, H1, app_assoc|now apply Forall_app].
  - now exists t1.
Qed.

Lemma emits_try_except {A} (body : M A) (handler : exn -> M A) :
  emits P body -> (forall e, emits P (handler e)) ->
  emits P (try_except body handler).
Proof.
  intros Hm Hk w. unfold try_except. destruct (Hm w) as (t1 & H1 & F1).
  destruct (body w) as [[a|e] w1]; cbn [snd] in *.
  - now exists t1.
  - destruct (Hk e w1) as (t2 & H2 & F2). exists (t1 ++ t2).
    split; [now rewrite H2, H1, app_assoc|now apply Forall_app].
Qed.

Lemma emits_try_except_OSError {A} (body : M A) (handler : exn -> M A) :
  emits P body -> (forall e, emits P (handler e)) ->
  emits P (try_except_OSError body handler).
Proof.
  intros Hm Hk w. unfold try_except_OSError.
  destruct (Hm w) as (t1 & H1 & F1).
  destruct (body w) as [[a|e] w1]; cbn [snd] in *.
  - now exists t1.
  - destruct (is_OSError e); [|now exists t1].
    destruct (Hk e w1) as (t2 & H2 & F2). exists (t1 ++ t2).
    split; [now rewrite H2, H1, app_assoc|now apply Forall_app].
Qed.

Lemma emits_for_each {A} (l : list A) (body : A -> M unit) :
  (forall x, emits P (body x)) -> emits P (for_each l body).
Proof.
  intros Hb. induction l as [|x l IH]; [apply emits_ret|].
  cbn [for_each]. apply emits_bind; [apply Hb|intros _; exact IH].
Qed.

Lemma emits_syscall (q : filesystem -> exn + filesystem) :
  emits P (syscall q).
Proof. apply emits_of_keeps, keeps_syscall. reflexivity. Qed.

Lemma emits_syscall_open (q : filesystem -> exn + (path * filesystem)) :
  emits P (syscall_open q).
Proof. apply emits_of_keeps, keeps_syscall_open. reflexivity. Qed.

Lemma emits_syscall_read {A} (q : filesystem -> exn + A) :
  emits P (syscall_read q).
Proof. apply emits_of_keeps, keeps_syscall_read. Qed.

Lemma emits_f_write (q : path) (text : string) : emits P (f_write q text).
Proof. apply emits_of_keeps, keeps_f_write. reflexivity. Qed.

Lemma emits_ask {A} (q : filesystem -> A) : emits P (ask q).
Proof. apply emits_of_keeps, keeps_ask. Qed.

(** The operations that log and do nothing else to the outside. *)
Section Logs.
Hypothesis Hlog : forall lvl msg, P (Log lvl msg).

Lemma emits_logger (lvl : level) (msg : string) : emits P (logger lvl msg).
Proof. apply emits_emit, Hlog. Qed.

Lemma emits_remove_existing_cli_dir (E : Env) :
  emits P (remove_existing_cli_dir E).
Proof.
  unfold remove_existing_cli_dir. apply emits_bind; [apply emits_ask|].
  intros [|]; [|apply emits_ret].
  apply emits_bind; [apply emits_logger|]. intros _.
  apply emits_try_except; [|intros e; apply emits_logger].
  apply emits_bind; [apply emits_syscall|intros _; apply emits_logger].
Qed.

Lemma emits_link_in_usr_local (E : Env) (cli_name : string) (wrapper : path) :
  emits P (link_in_usr_local E cli_name wrapper).
Proof.
  unfold link_in_usr_local. destruct (PLATFORM E); try apply emits_ret.
  apply emits_try_except; [|intros e; apply emits_logger].
  apply emits_bind; [apply emits_ask|]. intros b.
  destruct (negb b); [|apply emits_ret].
  apply emits_bind; [apply emits_syscall|intros _; apply emits_logger].
Qed.

Lemma emits_add_path_line (E : Env) (rc : path) :
  emits P (add_path_line E rc).
Proof.
  unfold add_path_line.
  apply emits_try_except_OSError; [|intros e; apply emits_logger].
  apply emits_bind; [apply emits_ask|]. intros b.
  apply emits_bind.
  - destruct b; [|apply emits_ret].
    apply emits_bind; [apply emits_syscall_read|intros t; apply emits_ret].
  - intros lines. destruct (negb _); [|apply emits_logger].
    apply emits_bind; [apply emits_syscall_open|]. intros q.
    apply emits_bind.
    + destruct lines; [apply emits_ret|apply emits_f_write].
    + intros _. apply emits_bind; [apply emits_f_write|].
      intros _. apply emits_logger.
Qed.

Lemma emits_install (E : Env) (cli_py_path venv_path : path)
    (cli_name : string) :
  emits P (install_moondream_cli E cli_py_path venv_path cli_name).
Proof.
  unfold install_moondream_cli.
  apply emits_bind; [apply emits_ask|]. intros cli_py.
  apply emits_bind; [apply emits_ask|]. intros venv_py.
  apply emits_bind; [apply emits_ask|]. intros b.
  destruct (negb b).
  { apply emits_bind; [apply emits_logger|intros _; apply emits_raise]. }
  apply emits_bind; [apply emits_ask|]. intros b'.
  destruct (negb b').
  { apply emits_bind; [apply emits_logger|intros _; apply emits_raise]. }
  cbv zeta.
  apply emits_bind; [apply emits_syscall|]. intros _.
  apply emits_bind.
  { unfold write_text. apply emits_bind; [apply emits_syscall_open|].
    intros q. apply emits_f_write. }
  intros _.
  apply emits_bind; [apply emits_syscall|]. intros _.
  apply emits_bind; [apply emits_logger|]. intros _.
  apply emits_bind; [apply emits_link_in_usr_local|]. intros _.
  apply emits_bind; [|intros _; apply emits_ret].
  apply emits_for_each. intros rc. apply emits_add_path_line.
Qed.

(** The download and the extraction besides. *)
Section Fetch.
Hypothesis Hurl : forall url p, P (Urlretrieve url p).
Hypothesis Hext : forall t d, P (Extractall t d).

Lemma emits_download_file (E : Env) (url : string) (p : path) :
  emits P (download_file E url p).
Proof.
  unfold download_file, urlretrieve.
  apply emits_bind; [apply emits_logger|]. intros _.
  apply emits_bind; [|intros _; apply emits_logger].
  apply emits_bind; [apply emits_emit, Hurl|]. intros _.
  destruct (urlopen E url) as [e|data broken]; [apply emits_raise|].
  apply emits_bind; [apply emits_syscall_open|]. intros q.
  apply emits_bind; [apply emits_f_write|]. intros _.
  destruct broken; [apply emits_raise|apply emits_ret].
Qed.

Lemma emits_download_and_extract (E : Env) (url : string) :
  emits P (_download_and_extract_cli E url).
Proof.
  unfold _download_and_extract_cli.
  apply emits_bind; [apply emits_logger|]. intros _.
  apply emits_bind; [apply emits_remove_existing_cli_dir|]. intros _.
  apply emits_try_except.
  - unfold fetch_and_unpack.
    apply emits_bind; [apply emits_download_file|]. intros _.
    apply emits_bind; [apply emits_logger|]. intros _.
    apply emits_bind.
    { unfold tarfile_extractall.
      apply emits_bind; [apply emits_emit, Hext|]. intros _.
      apply emits_of_keeps. intros w. unfold run_extractall.
      now destruct (tar_extractall E (fs w) _ _) as [f' [e|]]. }
    intros _.
    apply emits_bind; [apply emits_logger|]. intros _.
    apply emits_bind; [apply emits_syscall|]. intros _.
    apply emits_bind; [apply emits_logger|]. intros _.
    apply emits_ask.
  - intros e. unfold discard_archive.
    apply emits_bind; [apply emits_logger|]. intros _.
    apply emits_bind; [apply emits_ask|]. intros b.
    apply emits_bind; [|intros _; apply emits_ret].
    destruct b; [apply emits_syscall|apply emits_ret].
Qed.

Lemma emits_update (E : Env) : P ManifestUpdate -> emits P (update E).
Proof.
  intros Hman. unfold update. apply emits_bind.
  - unfold check_for_update. apply emits_bind.
    + unfold Manifest_update.
      apply emits_bind; [now apply emits_emit|]. intros _.
      apply emits_of_keeps. intros w. unfold run_manifest_update.
      now destruct (manifest_update E (manifest w)).
    + intros _. apply emits_bind; [apply emits_of_keeps, keeps_get_manifest|].
      intros m. apply emits_bind; [apply emits_of_keeps, keeps_get_config|].
      intros c. apply emits_ret.
  - intros st. destruct (negb (ood st)); [apply emits_ret|].
    apply emits_bind; [apply emits_of_keeps, keeps_get_manifest|]. intros m.
    apply emits_bind; [apply emits_download_and_extract|]. intros _.
    apply emits_bind; [apply emits_install|intros _; apply emits_ret].
Qed.

End Fetch.

(** What follows the installation in [boot]: the launch and the hint. *)
Lemma emits_boot_launch (E : Env) :
  (forall argv, P (Popen argv)) -> (forall text, P (Print text)) ->
  emits P
    (logger INFO "Launching CLI in a new window";;
     try_except (launch E)
       (fun e => logger ERROR "Failed to launch CLI in new window");;
     match PLATFORM E with
     | macOS =>
         emit (Print (nl +:+
           "If a terminal window with the CLI does not automatically appear, you can launch it by executing 'moondream' in a new window."
           +:+ nl))
     | _ => mret tt
     end).
Proof.
  intros Hpop Hprint.
  assert (Hp : forall argv, emits P (Popen_ E argv)).
  { intros argv. unfold Popen_.
    apply emits_bind; [apply emits_emit, Hpop|]. intros _.
    destruct (subprocess_Popen E argv); [apply emits_raise|apply emits_ret]. }
  apply emits_bind; [apply emits_logger|]. intros _.
  apply emits_bind.
  - apply emits_try_except; [|intros e; apply emits_logger].
    unfold launch. destruct (PLATFORM E).
    + unfold launch_cli_mac.
      apply emits_bind; [apply Hp|intros _; apply emits_logger].
    + unfold launch_cli_ubuntu.
      apply emits_bind; [apply emits_ask|]. intros cli_py.
      apply emits_bind; [apply emits_ask|]. intros venv_py.
      apply emits_bind; [apply Hp|]. intros pid.
      apply emits_bind; [apply emits_logger|]. intros _.
      apply emits_of_keeps. intros w. reflexivity.
    + apply emits_raise.
  - intros _. destruct (PLATFORM E); try apply emits_ret.
    apply emits_emit, Hprint.
Qed.

End Logs.
End Emits.

(** X18. The installation of the wrapper reaches nothing outside but the
    files and the log: it makes no network access, starts no process and
    prints nothing, whether it returns or raises. *)
Theorem install_only_logs (E : Env) (cli_py_path venv_path : path)
    (cli_name : string) :
  emits is_log (install_moondream_cli E cli_py_path venv_path cli_name).
Proof. apply emits_install. intros lvl msg. exact I. Qed.

(** X19. [update] installs and does not launch: it starts no process and
    prints nothing. *)
Theorem update_launches_nothing (E : Env) :
  emits (fun ev => ~ is_spawn ev /\ ~ is_print ev) (update E).
Proof. apply emits_update; intros; split; intros []. Qed.

(** X20. [boot] never asks for a fresh manifest: what it downloads is what
    the manifest it was given names. *)
Theorem boot_never_refreshes (E : Env) :
  emits (fun ev => ev <> ManifestUpdate) (boot E).
Proof.
  unfold boot. apply emits_bind.
  - unfold boot_install. cbv zeta.
    apply emits_bind; [apply emits_ask|]. intros b.
    apply emits_bind.
    + destruct (negb b); [|apply emits_ret].
      apply emits_bind; [apply emits_of_keeps, keeps_get_manifest|]. intros m.
      apply emits_bind; [apply emits_download_and_extract; discriminate|].
      intros _.
      apply emits_bind; [apply emits_install; discriminate|].
      intros _; apply emits_ret.
    + intros _.
      apply emits_bind; [apply emits_install; discriminate|].
      intros _; apply emits_ret.
  - intros _. apply emits_boot_launch; discriminate.
Qed.

(** X21. With the entry point of the CLI in its place [boot] makes no
    network access and unpacks nothing. *)
Theorem boot_offline_when_installed (E : Env) (w : World) :
  exists_ (fs w) (moondream_cli_path E) = true ->
  exists t : list Event,
    trace (boot E w).2 = trace w ++ t /\
    Forall (fun ev => ~ is_network ev /\
                      forall a b, ev <> Extractall a b) t.
Proof.
  intros Hex.
  set (Q := fun ev : Event =>
              ~ is_network ev /\ forall a b, ev <> Extractall a b).
  assert (Hlog : forall lvl msg, Q (Log lvl msg)).
  { intros lvl msg. split; [intros []|discriminate]. }
  assert (Hboot : boot E w =
    ((install_moondream_cli E (moondream_cli_path E) (venv_dir E) "moondream";;
      mret tt);;
     logger INFO "Launching CLI in a new window";;
     try_except (launch E)
       (fun e => logger ERROR "Failed to launch CLI in new window");;
     match PLATFORM E with
     | macOS =>
         emit (Print (nl +:+
           "If a terminal window with the CLI does not automatically appear, you can launch it by executing 'moondream' in a new window."
           +:+ nl))
     | _ => mret tt
     end) w).
  { unfold boot, boot_install. cbv zeta. unfold mbind, M_bind, ask at 1.
    rewrite Hex. reflexivity. }
  rewrite Hboot.
  apply (emits_bind Q).
  - apply emits_bind; [now apply emits_install|intros _; apply emits_ret].
  - intros _. apply emits_boot_launch; [exact Hlog| |];
      intros; (split; [intros []|discriminate]).
Qed.

Lemma boot_offline_when_installed_witness :
  exists t : list Event,
    trace (boot (Sample.offline Linux)
             (Sample.world Sample.installed "1.0.0" "1.0.0")).2
    = trace (Sample.world Sample.installed "1.0.0" "1.0.0") ++ t /\
    Forall (fun ev => ~ is_network ev /\
                      forall a b, ev <> Extractall a b) t.
Proof.
  apply (boot_offline_when_installed (Sample.offline Linux)
           (Sample.world Sample.installed "1.0.0" "1.0.0")).
  vm_compute. reflexivity.
Defined.

End Invariants.

(** ** The operations one by one *)

Module Operations.
Import PyStr Misc FS CLIVisor Spec Effects Notions.
Import Run Links Download Wrapper.

(** *** [download_file] *)

Lemma urlretrieve_refused (E : Env) (url : string) (p : path) (w : World)
    (e : exn) :
  urlopen E url = Refused e ->
  urlretrieve E url p w
  = (Raise e, set_trace w (trace w ++ [Urlretrieve url p])).
Proof.
  intros H. unfold urlretrieve.
  rewrite (bind_return _ _ _ _ _ (emit_run _ w)). now rewrite H.
Qed.

Lemma set_trace_twice (w : World) (t1 t2 : list Event) :
  set_trace (set_trace w t1) t2 = set_trace w t2.
Proof. reflexivity. Qed.

(** X22. A connection that is refused: [download_file] raises the error of
    the network as it is, has written nothing, and has not logged the end
    of the download. *)
Theorem download_file_refused (E : Env) (url : string) (p : path)
    (w : World) (e : exn) :
  urlopen E url = Refused e ->
  download_file E url p w
  = (Raise e,
     set_trace w (trace w ++ [Log INFO "Downloading"; Urlretrieve url p])).
Proof.
  intros H. unfold download_file.
  rewrite (bind_return _ _ _ _ _ (logger_run _ _ w)).
  rewrite (bind_raise _ _ _ _ _ (urlretrieve_refused E url p _ e H)).
  cbn [trace set_trace]. rewrite set_trace_twice, <- app_assoc. reflexivity.
Qed.

Lemma download_file_refused_witness :
  download_file (Sample.offline Linux) "u" ["opt"; "t"]
    (Sample.world Sample.bare "1" "1")
  = (Raise (External true "URLError"),
     set_trace (Sample.world Sample.bare "1" "1")
       (trace (Sample.world Sample.bare "1" "1")
        ++ [Log INFO "Downloading"; Urlretrieve "u" ["opt"; "t"]])).
Proof.
  apply (download_file_refused (Sample.offline Linux) "u" ["opt"; "t"]).
  reflexivity.
Defined.

(** What [open] for writing with truncation and one [write] leave. *)
Lemma open_write_then_write (m0 : N) (f : filesystem) (p q : path)
    (f1 : filesystem) (data : string) :
  open_write true m0 f p = inr (q, f1) ->
  follow MAXSYMLINKS f p = Some q /\
  exists m : N,
    write f1 q data = <[q := File data m]> f /\
    (f !! q = None /\ m = m0 \/ exists c, f !! q = Some (File c m)).
Proof.
  unfold open_write. destruct (follow MAXSYMLINKS f p) as [q0|]; [|discriminate].
  destruct (f !! q0) as [[c m| |t]|] eqn:Hq0; try discriminate.
  - intros [= <- <-]. split; [reflexivity|]. exists m. split; [|right; eauto].
    unfold write. rewrite lookup_insert_eq.
    change (EmptyString +:+ data) with data. apply insert_insert_eq.
  - destruct (check_parent f q0); [discriminate|].
    intros [= <- <-]. split; [reflexivity|]. exists m0. split; [|now left].
    unfold write. rewrite lookup_insert_eq.
    change (EmptyString +:+ data) with data. apply insert_insert_eq.
Qed.

(** X23. When [download_file] returns, the server has answered in full
    and the file at the end of the links of the path holds what it sent,
    in place of what it held; nothing else has changed, and the end of the
    download is the last record of the log. *)
Theorem download_file_writes_body (E : Env) (url : string) (p : path)
    (w w' : World) :
  download_file E url p w = (Return tt, w') ->
  exists (data : string) (q : path) (m : N),
    urlopen E url = Body data None /\
    follow MAXSYMLINKS (fs w) p = Some q /\
    fs w' = <[q := File data m]> (fs w) /\
    (fs w !! q = None /\ m = create_mode E \/
     exists c, fs w !! q = Some (File c m)) /\
    trace w' = trace w ++ [Log INFO "Downloading"; Urlretrieve url p;
                           Log INFO "Download complete."].
Proof.
  unfold download_file, urlretrieve. munfold. cbn beta iota.
  cbn [fs set_trace trace].
  destruct (urlopen E url) as [e|data broken]; [discriminate|].
  cbn beta iota. cbn [fs set_trace trace].
  destruct (open_write true (create_mode E) (fs w) p) as [e|[q f1]] eqn:Ho;
    [discriminate|].
  destruct broken as [e|]; [discriminate|].
  intros [= <-]. cbn [fs set_fs set_trace trace].
  destruct (open_write_then_write _ _ _ _ _ data Ho) as (Hq & m & Hw & Hm).
  exists data, q, m. repeat split; try assumption.
  now rewrite <- !app_assoc.
Qed.

Lemma download_file_writes_body_witness :
  exists (data : string) (q : path) (m : N),
    urlopen (Sample.online Linux) "u" = Body data None /\
    follow MAXSYMLINKS (fs (Sample.world Sample.bare "1" "1")) ["opt"; "t"]
    = Some q /\
    fs (download_file (Sample.online Linux) "u" ["opt"; "t"]
          (Sample.world Sample.bare "1" "1")).2
    = <[q := File data m]> (fs (Sample.world Sample.bare "1" "1")) /\
    (fs (Sample.world Sample.bare "1" "1") !! q = None /\
     m = create_mode (Sample.online Linux) \/
     exists c, fs (Sample.world Sample.bare "1" "1") !! q = Some (File c m)) /\
    trace (download_file (Sample.online Linux) "u" ["opt"; "t"]
             (Sample.world Sample.bare "1" "1")).2
    = trace (Sample.world Sample.bare "1" "1")
      ++ [Log INFO "Downloading"; Urlretrieve "u" ["opt"; "t"];
          Log INFO "Download complete."].
Proof.
  apply (download_file_writes_body (Sample.online Linux) "u" ["opt"; "t"]
           (Sample.world Sample.bare "1" "1")).
  apply Pairs.pair_of_fst. vm_compute. reflexivity.
Defined.

(** *** The old directory of the CLI *)

Lemma rmtree_clears (f : filesystem) (d : path) (f' : filesystem) :
  rmtree f d = inr f' ->
  f !! d = Some Dir /\
  forall k : path,
    f' !! k = if decide (d `prefix_of` k) then None else f !! k.
Proof.
  unfold rmtree. destruct (f !! d) as [[| |]|]; try discriminate.
  intros [= <-]. split; [reflexivity|]. intros k.
  destruct (decide (d `prefix_of` k)) as [Hp|Hp].
  - apply map_lookup_filter_None. right. intros x _ Hn. now apply Hn.
  - destruct (f !! k) as [x|] eqn:Hk.
    + apply map_lookup_filter_Some. now split.
    + apply map_lookup_filter_None. now left.
Qed.

Lemma remove_existing_fs (E : Env) (w : World) :
  (fs w !! moondream_cli_dir E = Some Dir ->
   rmtree (fs w) (moondream_cli_dir E)
   = inr (fs (remove_existing_cli_dir E w).2)) /\
  (fs w !! moondream_cli_dir E <> Some Dir ->
   fs (remove_existing_cli_dir E w).2 = fs w).
Proof.
  unfold remove_existing_cli_dir. munfold. cbn beta iota. split.
  - intros Hd. rewrite (isdir_lookup _ _ Hd). cbn [fs set_trace].
    unfold rmtree. rewrite Hd. reflexivity.
  - intros Hd. destruct (isdir (fs w) (moondream_cli_dir E)); [|reflexivity].
    cbn [fs set_trace]. unfold rmtree.
    destruct (fs w !! moondream_cli_dir E) as [[| |]|]; try reflexivity.
    congruence.
Qed.

(** X24. The removal of the old directory never raises. When the directory
    of the CLI is a directory in its own right, it goes with everything
    below it and nothing else changes; when it is anything else, a link to
    a directory included, no file changes. *)
Theorem remove_existing_cli_dir_effect (E : Env) (w : World) :
  exists w' : World,
    remove_existing_cli_dir E w = (Return tt, w') /\
    (fs w !! moondream_cli_dir E = Some Dir ->
     forall k : path,
       fs w' !! k =
       if decide (moondream_cli_dir E `prefix_of` k) then None
       else fs w !! k) /\
    (fs w !! moondream_cli_dir E <> Some Dir -> fs w' = fs w).
Proof.
  destruct (remove_existing_returns E w) as [w' Hrun]. exists w'.
  split; [exact Hrun|].
  destruct (remove_existing_fs E w) as [H1 H2]. rewrite Hrun in H1, H2.
  split; [|exact H2].
  intros Hd. now apply (rmtree_clears (fs w)), H1.
Qed.

(** X25. The old CLI goes before the new one has come: when the server
    refuses the download, nothing is left at or below the directory of the
    CLI, whatever the way [_download_and_extract_cli] ends. *)
Theorem refused_download_loses_old_cli (E : Env) (url : string) (w : World)
    (e : exn) (k : path) :
  fs w !! moondream_cli_dir E = Some Dir ->
  urlopen E url = Refused e ->
  moondream_cli_dir E `prefix_of` k ->
  fs (_download_and_extract_cli E url w).2 !! k = None.
Proof.
  intros Hd Hurl Hk. rewrite download_and_extract_unfold.
  assert (H0 : fs (before_fetch E w) !! k = None).
  { unfold before_fetch.
    destruct (remove_existing_fs E
                (set_trace w (trace w ++ [Log DEBUG "Downloading CLI from"])))
      as [H1 _].
    specialize (H1 Hd). apply rmtree_clears in H1 as [_ H1].
    rewrite (H1 k). now destruct (decide (moondream_cli_dir E `prefix_of` k)). }
  set (w0 := before_fetch E w) in *.
  assert (Hdl : exists w1,
            download_file E url (tar_path E) w0 = (Raise e, w1) /\
            fs w1 = fs w0).
  { unfold download_file.
    rewrite (bind_return _ _ _ _ _ (logger_run _ _ w0)).
    rewrite (bind_raise _ _ _ _ _ (urlretrieve_refused E url _ _ e Hurl)).
    eexists. split; reflexivity. }
  destruct Hdl as (w1 & Hdl & Hfs). rewrite <- Hfs in H0.
  unfold try_except, fetch_and_unpack.
  rewrite (bind_raise _ _ _ _ _ Hdl).
  clearbody w0. clear Hdl Hfs. revert H0. generalize w1. clear w1.
  intros w1 H0.
  unfold discard_archive. munfold. cbn beta iota. cbn [fs set_trace].
  destruct (exists_ (fs w1) (tar_path E)); [|exact H0].
  cbn [fs set_trace].
  destruct (remove (fs w1) (tar_path E)) as [e'|f'] eqn:Hrm; [exact H0|].
  cbn [snd fs set_fs].
  pose proof (remove_spec (fs w1) (tar_path E)) as Hs. rewrite Hrm in Hs.
  destruct Hs as [-> _].
  destruct (decide (tar_path E = k)) as [<-|Hne].
  - apply lookup_delete_eq.
  - now rewrite lookup_delete_ne.
Qed.

Lemma refused_download_loses_old_cli_witness :
  fs (_download_and_extract_cli (Sample.offline Linux) "u"
        (Sample.world Sample.installed "1" "2")).2
    !! ["opt"; "station"; "moondream_cli"; "moondream-cli.py"] = None.
Proof.
  apply (refused_download_loses_old_cli (Sample.offline Linux) "u"
           (Sample.world Sample.installed "1" "2")
           (External true "URLError")).
  - vm_compute. reflexivity.
  - reflexivity.
  - exists ["moondream-cli.py"]. reflexivity.
Defined.

(** *** The launch *)

(** X26. On Linux the launch starts the interpreter of the virtual
    environment on the entry point, both with their links resolved, and
    checks neither; it returns exactly when the process has started, and
    records the process then and only then. *)
Theorem launch_cli_ubuntu_records_process (E : Env)
    (venv_path cli_py_path : path) (w : World) :
  let argv := ubuntu_argv (fs w) venv_path cli_py_path in
  let r := launch_cli_ubuntu E venv_path cli_py_path w in
  match subprocess_Popen E argv with
  | inr pid =>
      r.1 = Return tt /\ cli_process r.2 = Some pid /\
      trace r.2 = trace w ++ [Popen argv;
                             Log DEBUG "CLI process started with PID"]
  | inl e =>
      r.1 = Raise e /\ cli_process r.2 = cli_process w /\
      trace r.2 = trace w ++ [Popen argv]
  end.
Proof.
  cbv zeta. unfold launch_cli_ubuntu, ubuntu_argv, Popen_. munfold.
  cbn beta iota. cbn [fs set_trace trace].
  destruct (subprocess_Popen E _) as [e|pid]; cbn; repeat split.
  now rewrite <- app_assoc.
Qed.

(** The guarded launch of [boot] returns, and a record of the log is the
    last thing it leaves. *)
Lemma guarded_launch_ends_with_log (E : Env) (w : World) :
  exists (w' : World) (pre : list Event) (lvl : level) (msg : string),
    try_except (launch E)
      (fun e => logger ERROR "Failed to launch CLI in new window") w
    = (Return tt, w') /\
    trace w' = pre ++ [Log lvl msg].
Proof.
  unfold try_except, launch. destruct (PLATFORM E).
  - unfold launch_cli_mac, Popen_. munfold. cbn beta iota.
    destruct (subprocess_Popen E _); cbn; do 4 eexists; split; reflexivity.
  - unfold launch_cli_ubuntu, Popen_. munfold. cbn beta iota.
    cbn [fs set_trace trace].
    destruct (subprocess_Popen E _); cbn; do 4 eexists; split; reflexivity.
  - cbn. do 4 eexists; split; reflexivity.
Qed.

(** X27. The hint about the window that may not appear is printed on
    macOS and nowhere else, whether the launch has worked or not: when
    [boot] returns, the last thing it did was to print exactly on macOS. *)
Theorem boot_prints_hint_on_macos_only (E : Env) (w w' : World) :
  boot E w = (Return tt, w') ->
  (PLATFORM E = macOS <-> exists t text, trace w' = t ++ [Print text]).
Proof.
  unfold boot. intros H.
  apply bind_inv_return in H as ([] & w1 & _ & H).
  apply bind_inv_return in H as ([] & w2 & _ & H).
  destruct (guarded_launch_ends_with_log E w2) as (w3 & pre & lvl & msg & Hl & Ht).
  rewrite (bind_return _ _ _ _ _ Hl) in H.
  destruct (PLATFORM E).
  - injection H as <-. split; [|reflexivity]. intros _. cbn [trace set_trace].
    now do 2 eexists.
  - injection H as <-. split; [discriminate|].
    intros (t & text & Heq). rewrite Ht in Heq.
    apply app_inj_tail in Heq as [_ Heq]. discriminate.
  - injection H as <-. split; [discriminate|].
    intros (t & text & Heq). rewrite Ht in Heq.
    apply app_inj_tail in Heq as [_ Heq]. discriminate.
Qed.

Lemma boot_prints_hint_on_macos_only_witness :
  PLATFORM (Sample.offline macOS) = macOS <->
  exists t text,
    trace (boot (Sample.offline macOS)
             (Sample.world Sample.installed "1" "1")).2
    = t ++ [Print text].
Proof.
  apply (boot_prints_hint_on_macos_only (Sample.offline macOS)
           (Sample.world Sample.installed "1" "1")).
  apply Pairs.pair_of_fst. vm_compute. reflexivity.
Defined.

(** *** The refresh of the manifest *)

(** X28. A manifest that cannot be refreshed stops [check_for_update] and
    [update] at once: the error of the refresh is raised as it is, and
    nothing has been compared, removed, downloaded or installed. *)
Theorem refresh_failure_propagates (E : Env) (w : World) (e : exn) :
  manifest_update E (manifest w) = inl e ->
  check_for_update E true w
  = (Raise e, set_trace w (trace w ++ [ManifestUpdate])) /\
  update E w = (Raise e, set_trace w (trace w ++ [ManifestUpdate])).
Proof.
  intros H.
  assert (Hc : check_for_update E true w
               = (Raise e, set_trace w (trace w ++ [ManifestUpdate]))).
  { unfold check_for_update, Manifest_update, run_manifest_update. munfold.
    cbn [manifest set_trace]. now rewrite H. }
  split; [exact Hc|].
  unfold update. now rewrite (bind_raise _ _ _ _ _ Hc).
Qed.

Lemma refresh_failure_propagates_witness :
  check_for_update (stale (Sample.online Linux) (External true "URLError"))
    true (Sample.world Sample.installed "1" "2")
  = (Raise (External true "URLError"),
     set_trace (Sample.world Sample.installed "1" "2")
       (trace (Sample.world Sample.installed "1" "2") ++ [ManifestUpdate])) /\
  update (stale (Sample.online Linux) (External true "URLError"))
    (Sample.world Sample.installed "1" "2")
  = (Raise (External true "URLError"),
     set_trace (Sample.world Sample.installed "1" "2")
       (trace (Sample.world Sample.installed "1" "2") ++ [ManifestUpdate])).
Proof.
  apply (refresh_failure_propagates
           (stale (Sample.online Linux) (External true "URLError"))
           (Sample.world Sample.installed "1" "2")).
  reflexivity.
Defined.

(** *** The text of the wrapper *)

Lemma has_char_app (c : ascii) (a b : string) :
  has_char c (a +:+ b) = has_char c a || has_char c b.
Proof.
  induction a as [|x a IH]; [reflexivity|].
  change (String x a +:+ b) with (String x (a +:+ b)).
  cbn [has_char]. now rewrite IH, orb_assoc.
Qed.

(** The line of the wrapper that starts the CLI, without its margin. *)
Lemma exec_line_plain (v c : string) :
  has_char "010" v = false -> has_char "010" c = false ->
  has_char "010"
    ("        exec " +:+ dq +:+ v +:+ dq +:+ " " +:+ dq +:+ c +:+ dq
     +:+ " " +:+ dq +:+ "$@" +:+ dq) = false.
Proof.
  intros Hv Hc. rewrite !has_char_app, Hv, Hc. reflexivity.
Qed.

(** X29. The wrapper is a shell script of two lines, without margin: the
    line that names the shell, and the line that replaces the shell by the
    interpreter run on the entry point with the arguments of the command;
    this for paths without a line feed. *)
Theorem script_shape (venv_py cli_py : path) :
  has_char "010" (path_str venv_py) = false ->
  has_char "010" (path_str cli_py) = false ->
  script venv_py cli_py
  = "#!/usr/bin/env sh" +:+ nl +:+
    "exec " +:+ dq +:+ path_str venv_py +:+ dq +:+ " " +:+ dq
      +:+ path_str cli_py +:+ dq +:+ " " +:+ dq +:+ "$@" +:+ dq +:+ nl.
Proof.
  intros Hv Hc. unfold script, dedent.
  set (v := path_str venv_py) in *. set (c := path_str cli_py) in *.
  set (l2 := "        exec " +:+ dq +:+ v +:+ dq +:+ " " +:+ dq +:+ c +:+ dq
             +:+ " " +:+ dq +:+ "$@" +:+ dq).
  assert (Hsplit :
    split_on "010"
      ("        #!/usr/bin/env sh" +:+ nl +:+
       "        exec " +:+ dq +:+ v +:+ dq +:+ " "
         +:+ dq +:+ c +:+ dq +:+ " " +:+ dq +:+ "$@" +:+ dq +:+ nl +:+
       "        ")
    = ["        #!/usr/bin/env sh"; l2; "        "]).
  { replace ("        #!/usr/bin/env sh" +:+ nl +:+
             "        exec " +:+ dq +:+ v +:+ dq +:+ " "
               +:+ dq +:+ c +:+ dq +:+ " " +:+ dq +:+ "$@" +:+ dq +:+ nl +:+
             "        ")
      with ("        #!/usr/bin/env sh" +:+
            String "010" (l2 +:+ String "010" "        ")).
    2:{ unfold l2. rewrite !PathLine.append_assoc. reflexivity. }
    rewrite VersionFacts.split_on_app by reflexivity.
    rewrite VersionFacts.split_on_app by (now apply exec_line_plain).
    reflexivity. }
  rewrite Hsplit. clear Hsplit Hv Hc.
  set (rest := "xec " +:+ dq +:+ v +:+ dq +:+ " " +:+ dq +:+ c +:+ dq
               +:+ " " +:+ dq +:+ "$@" +:+ dq).
  transitivity ("#!/usr/bin/env sh" +:+ nl +:+ String "e" (rest +:+ nl)).
  2:{ unfold rest. rewrite !PathLine.append_assoc. reflexivity. }
  change l2 with ("        " +:+ String "e" rest).
  clearbody rest. clear l2. cbv. reflexivity.
Qed.

Lemma script_shape_witness :
  script ["opt"; "station"; ".venv"; "bin"; "python"]
         ["opt"; "station"; "moondream_cli"; "moondream-cli.py"]
  = "#!/usr/bin/env sh" +:+ nl +:+
    "exec " +:+ dq
      +:+ path_str ["opt"; "station"; ".venv"; "bin"; "python"] +:+ dq
      +:+ " " +:+ dq
      +:+ path_str ["opt"; "station"; "moondream_cli"; "moondream-cli.py"]
      +:+ dq +:+ " " +:+ dq +:+ "$@" +:+ dq +:+ nl.
Proof.
  apply (script_shape ["opt"; "station"; ".venv"; "bin"; "python"]
           ["opt"; "station"; "moondream_cli"; "moondream-cli.py"]);
    reflexivity.
Defined.

End Operations.
